(** * Hardware-diagnostics: the scoring and classification engine

    A shallow embedding of the backend scoring engine
    ([backend/rules/healthRules.js], latest revision) and of the
    dispatcher ([backend/services/evaluateDevice.js], latest revision),
    followed by the properties of the engine's specification.

    Conventions of the embedding.
    - A JavaScript number is [NaN] or a finite value; finite doubles are
      idealised as rationals ([Q]), so rounding error of binary floating
      point and the infinities are outside the model.
    - A raw payload is a JSON object: a finite map from keys to scalar
      JSON values ([undefined] is admitted as a value, because an own
      property may hold it).
    - [StringToNumber] and [Math.pow] belong to the language runtime, not
      to the repository; they are parameters of the development. *)

From Stdlib Require Import QArith Qround ZArith Lia Lqa String List.
From stdpp Require Import gmap strings.
Import ListNotations.

Open Scope string_scope.

(* ================================================================== *)
(** * A small kernel of JavaScript values and operators *)
(* ================================================================== *)

Module JS.

(** Numbers: [NaN] or a finite rational. *)
Inductive number := NaN | Num (q : Q).

(** JSON scalars, plus [undefined]. *)
Inductive value :=
| VUndefined
| VNull
| VBool (b : bool)
| VNumber (n : number)
| VString (s : string).

Definition Qlt_bool (x y : Q) : bool := negb (Qle_bool y x).

(** Arithmetic: [NaN] is absorbing. *)
Definition add (a b : number) : number :=
  match a, b with Num x, Num y => Num (x + y) | _, _ => NaN end.
Definition sub (a b : number) : number :=
  match a, b with Num x, Num y => Num (x - y) | _, _ => NaN end.
Definition mul (a b : number) : number :=
  match a, b with Num x, Num y => Num (x * y) | _, _ => NaN end.
(** Every divisor in the engine is a non-zero literal; a zero divisor
    (an infinity or [NaN] in JavaScript) is sent to [NaN] here. *)
Definition div (a b : number) : number :=
  match a, b with
  | Num x, Num y => if Qeq_bool y 0 then NaN else Num (x / y)
  | _, _ => NaN
  end.

(** Relational operators: any comparison with [NaN] is false. *)
Definition ge (a b : number) : bool :=
  match a, b with Num x, Num y => Qle_bool y x | _, _ => false end.
Definition gt (a b : number) : bool :=
  match a, b with Num x, Num y => Qlt_bool y x | _, _ => false end.
Definition lt (a b : number) : bool :=
  match a, b with Num x, Num y => Qlt_bool x y | _, _ => false end.
(** [===] on numbers. *)
Definition num_eq (a b : number) : bool :=
  match a, b with Num x, Num y => Qeq_bool x y | _, _ => false end.

(** [Math.max], [Math.min] (two arguments), [Math.round]. *)
Definition Math_max (a b : number) : number :=
  match a, b with
  | Num x, Num y => if Qle_bool x y then Num y else Num x
  | _, _ => NaN
  end.
Definition Math_min (a b : number) : number :=
  match a, b with
  | Num x, Num y => if Qle_bool x y then Num x else Num y
  | _, _ => NaN
  end.
(** [Math.round] rounds to the nearest integer, ties towards +infinity. *)
Definition Math_round (a : number) : number :=
  match a with
  | Num x => Num (inject_Z (Qfloor (x + (1 # 2))))
  | NaN => NaN
  end.

(** [Number(x.toFixed(2))]: nearest multiple of 1/100, ties away from
    zero ([toFixed] prints the sign and rounds the magnitude). *)
Definition toFixed2 (a : number) : number :=
  match a with
  | Num x =>
      if Qlt_bool x 0
      then Num (- (inject_Z (Qfloor ((- x) * 100 + (1 # 2))) / 100))
      else Num (inject_Z (Qfloor (x * 100 + (1 # 2))) / 100)
  | NaN => NaN
  end.

(** [ToBoolean]. *)
Definition ToBoolean (v : value) : bool :=
  match v with
  | VUndefined | VNull => false
  | VBool b => b
  | VNumber NaN => false
  | VNumber (Num q) => negb (Qeq_bool q 0)
  | VString s => negb (String.eqb s "")
  end.

(** [a ?? b] and [a || b]. *)
Definition coalesce (a b : value) : value :=
  match a with VUndefined | VNull => b | _ => a end.
Definition or (a b : value) : value := if ToBoolean a then a else b.

(** [a === b]. *)
Definition strict_eq (a b : value) : bool :=
  match a, b with
  | VUndefined, VUndefined => true
  | VNull, VNull => true
  | VBool x, VBool y => Bool.eqb x y
  | VNumber x, VNumber y => num_eq x y
  | VString x, VString y => String.eqb x y
  | _, _ => false
  end.

(** [typeof v === "boolean"]. *)
Definition is_boolean (v : value) : bool :=
  match v with VBool _ => true | _ => false end.

(** Property read [o.k] on an ordinary object whose prototype has no
    property [k]: an absent key reads as [undefined]. *)
Definition get (o : gmap string value) (k : string) : value :=
  match o !! k with Some v => v | None => VUndefined end.

Section Runtime.
(** The runtime's [StringToNumber] (ECMA-262 7.1.4.1.1). *)
Variable StringToNumber : string -> number.

(** [ToNumber], the coercion applied by [Number(v)], [Math.max],
    [Math.min] and the arithmetic operators. *)
Definition ToNumber (v : value) : number :=
  match v with
  | VUndefined => NaN
  | VNull => Num 0
  | VBool b => if b then Num 1 else Num 0
  | VNumber n => n
  | VString s => StringToNumber s
  end.
End Runtime.

(** A number lies in a closed interval (never true of [NaN]). *)
Definition between (lo hi : Q) (n : number) : Prop :=
  match n with Num q => (lo <= q /\ q <= hi)%Q | NaN => False end.

(** Equality of numbers up to the representation of the rational. *)
Definition same (a b : number) : Prop :=
  match a, b with
  | Num x, Num y => (x == y)%Q
  | NaN, NaN => True
  | _, _ => False
  end.

(** [Array.prototype.sort(cmp)] (stable since ES2019), as a stable
    insertion sort; a [NaN] comparison result counts as 0. *)
Section Sort.
Context {A : Type} (cmp : A -> A -> number).
Fixpoint insert_sorted (x : A) (l : list A) : list A :=
  match l with
  | [] => [x]
  | y :: l' => if gt (cmp x y) (Num 0) then y :: insert_sorted x l' else x :: l
  end.
Definition sort (l : list A) : list A := fold_right insert_sorted [] l.
End Sort.

End JS.

(* ================================================================== *)
(** * The scoring engine ([backend/rules/healthRules.js]) *)
(* ================================================================== *)

Module HealthRules.
Import JS.

(** ** Configuration *)

Record scoring_categories := {
  FUNCTIONAL_INTEGRITY : number;
  PERFORMANCE_RETENTION : number;
  REMAINING_LIFE : number;
  PHYSICAL_THERMAL : number
}.

Definition SCORING_CATEGORIES : scoring_categories :=
  {| FUNCTIONAL_INTEGRITY := Num 40;
     PERFORMANCE_RETENTION := Num 30;
     REMAINING_LIFE := Num 20;
     PHYSICAL_THERMAL := Num 10 |}.

(** An entry of [REUSABILITY_CLASSIFICATION]. *)
Record classification := {
  min : number;
  label : string;
  description : string
}.

Definition HIGH_GRADE_CLASS : classification :=
  {| min := Num 85; label := "High-grade reusable";
     description := "Excellent condition, ready for immediate reuse" |}.
Definition REUSABLE_CLASS : classification :=
  {| min := Num 70; label := "Reusable";
     description := "Good condition, minor upgrades recommended" |}.
Definition LIMITED_CLASS : classification :=
  {| min := Num 50; label := "Limited reuse";
     description := "Functional but with notable limitations" |}.
Definition NOT_RECOMMENDED_CLASS : classification :=
  {| min := Num 0; label := "Not recommended";
     description := "Significant issues present, reuse not advised" |}.

(** [Object.values(REUSABILITY_CLASSIFICATION)], in insertion order. *)
Definition REUSABILITY_CLASSIFICATION : list classification :=
  [HIGH_GRADE_CLASS; REUSABLE_CLASS; LIMITED_CLASS; NOT_RECOMMENDED_CLASS].

(** A row of a scoring table. *)
Record rule := { threshold : number; score : number }.

Definition PERFORMANCE_SCORING : list rule :=
  [ {| threshold := Num 95; score := Num 30 |};
    {| threshold := Num 90; score := Num 25 |};
    {| threshold := Num 85; score := Num 20 |};
    {| threshold := Num 80; score := Num 15 |};
    {| threshold := Num 0; score := Num 5 |} ].

Definition SSD_WEAR_SCORING : list rule :=
  [ {| threshold := Num 20; score := Num 10 |};
    {| threshold := Num 40; score := Num 7 |};
    {| threshold := Num 60; score := Num 4 |};
    {| threshold := Num 100; score := Num 0 |} ].

Definition BATTERY_HEALTH_SCORING : list rule :=
  [ {| threshold := Num 85; score := Num 10 |};
    {| threshold := Num 70; score := Num 7 |};
    {| threshold := Num 60; score := Num 4 |};
    {| threshold := Num 0; score := Num 0 |} ].

Record thermal_pair := { idle : number; load : number }.
Record thermal_limits := { normal : thermal_pair; critical : thermal_pair }.

Definition THERMAL_LIMITS : thermal_limits :=
  {| normal := {| idle := Num 50; load := Num 85 |};
     critical := {| idle := Num 60; load := Num 95 |} |}.

(** ** Utilities *)

Definition clamp (value min max : number) : number :=
  Math_max min (Math_min max value).

Definition pct (value max : number) : number :=
  Math_round (mul (div value max) (Num 100)).

(** The [for ... of] scan of [scoreLookup]: first row whose threshold
    the value meets, 0 when none does. *)
Fixpoint scoreLookup (value : number) (rules : list rule) : number :=
  match rules with
  | [] => Num 0
  | r :: rest => if ge value (threshold r) then score r else scoreLookup value rest
  end.

(** ** Normalisation *)

(** The record built by [normalizeInput]. The type of each field is what
    its initialiser can produce: [Math.max] and [clamp] give numbers,
    [=== true] and [!== false] give booleans, [||] and [??] pass the raw
    value through. On such a record the [?? 0] that the scorers put
    after a numeric field is the identity, and [x !== false] on a
    boolean [x] is [x]. *)
Record NormalizedDiagnostic := {
  storage_smart_status : value;
  ram_test_errors : number;
  cpu_stress_stable : value;
  cpu_throttling : value;
  gpu_stress_stable : value;
  gpu_artifacts : value;
  performance_percentage : number;
  ssd_wear_percentage : number;
  battery_health_percent : number;
  physical_damage : bool;
  port_integrity : bool;
  idle_temperature_celsius : number;
  load_temperature_celsius : number
}.

Section Engine.
Variable StringToNumber : string -> number.
(** [Math.pow] on finite arguments. *)
Variable Math_pow : Q -> Q -> Q.

Abbreviation ToNumber := (JS.ToNumber StringToNumber).

Definition normalizeInput (input : gmap string value) : NormalizedDiagnostic :=
  {| storage_smart_status := or (get input "storage_smart_status") (VString "UNKNOWN");
     ram_test_errors :=
       Math_max (Num 0) (ToNumber (coalesce (get input "ram_test_errors") (VNumber (Num 0))));
     cpu_stress_stable := coalesce (get input "cpu_stress_stable") (VBool false);
     cpu_throttling := coalesce (get input "cpu_throttling") (VBool false);
     gpu_stress_stable := coalesce (get input "gpu_stress_stable") (VBool false);
     gpu_artifacts := coalesce (get input "gpu_artifacts") (VBool false);
     performance_percentage :=
       clamp (ToNumber (coalesce (get input "performance_percentage") (VNumber (Num 0))))
             (Num 0) (Num 100);
     ssd_wear_percentage :=
       clamp (ToNumber (coalesce (get input "ssd_wear_percentage") (VNumber (Num 0))))
             (Num 0) (Num 100);
     battery_health_percent :=
       clamp (ToNumber (coalesce (get input "battery_health_percent") (VNumber (Num 0))))
             (Num 0) (Num 100);
     physical_damage := strict_eq (get input "physical_damage") (VBool true);
     port_integrity := negb (strict_eq (get input "port_integrity") (VBool false));
     idle_temperature_celsius :=
       Math_max (Num 0)
         (ToNumber (coalesce (get input "idle_temperature_celsius") (VNumber (Num 0))));
     load_temperature_celsius :=
       Math_max (Num 0)
         (ToNumber (coalesce (get input "load_temperature_celsius") (VNumber (Num 0)))) |}.

(** ** Category 1: functional integrity (40 points) *)

Record StorageDetail := { storage_score : number; storage_max : number; storage_status : value }.
Record RamDetail := { ram_score : number; ram_max : number; ram_errors : number }.
Record CpuDetail :=
  { cpu_score : number; cpu_max : number; cpu_stable : value; cpu_throttling_flag : value }.
Record GpuDetail :=
  { gpu_score : number; gpu_max : number; gpu_stable : value; gpu_artifacts_flag : value }.
Record FunctionalDetails :=
  { fd_storage : StorageDetail; fd_ram : RamDetail; fd_cpu : CpuDetail; fd_gpu : GpuDetail }.
Record FunctionalIntegrity := { functional_score : number; functional_details : FunctionalDetails }.

Definition scoreFunctionalIntegrity (diag : NormalizedDiagnostic) : FunctionalIntegrity :=
  let storageScore :=
    if strict_eq (storage_smart_status diag) (VString "GOOD") then Num 10
    else if strict_eq (storage_smart_status diag) (VString "WARNING") then Num 6
    else Num 0 in
  let ramScore :=
    if num_eq (ram_test_errors diag) (Num 0) then Num 10
    else if num_eq (ram_test_errors diag) (Num 1) then Num 5
    else Num 0 in
  let cpuScore :=
    if strict_eq (cpu_stress_stable diag) (VBool true) then Num 10
    else if strict_eq (cpu_stress_stable diag) (VBool false)
            && ToBoolean (cpu_throttling diag) then Num 6
    else Num 0 in
  let gpuScore :=
    if strict_eq (gpu_stress_stable diag) (VBool true) then Num 10
    else if strict_eq (gpu_stress_stable diag) (VBool false)
            && ToBoolean (gpu_artifacts diag) then Num 5
    else Num 0 in
  let score := add (add (add storageScore ramScore) cpuScore) gpuScore in
  {| functional_score := clamp score (Num 0) (FUNCTIONAL_INTEGRITY SCORING_CATEGORIES);
     functional_details :=
       {| fd_storage := {| storage_score := storageScore; storage_max := Num 10;
                           storage_status := storage_smart_status diag |};
          fd_ram := {| ram_score := ramScore; ram_max := Num 10;
                       ram_errors := ram_test_errors diag |};
          fd_cpu := {| cpu_score := cpuScore; cpu_max := Num 10;
                       cpu_stable := cpu_stress_stable diag;
                       cpu_throttling_flag := cpu_throttling diag |};
          fd_gpu := {| gpu_score := gpuScore; gpu_max := Num 10;
                       gpu_stable := gpu_stress_stable diag;
                       gpu_artifacts_flag := gpu_artifacts diag |} |} |}.

(** ** Category 2: performance retention (30 points) *)

Inductive benchmark_status := EVALUATED | NO_DATA.
Record PerformanceDetails :=
  { performancePercent : number; benchmarkStatus : benchmark_status }.
Record PerformanceRetention :=
  { performance_score : number; performance_details : PerformanceDetails }.

Definition scorePerformanceRetention (diag : NormalizedDiagnostic) : PerformanceRetention :=
  let perfPercent := performance_percentage diag in
  let score :=
    if gt perfPercent (Num 0) then scoreLookup perfPercent PERFORMANCE_SCORING else Num 0 in
  {| performance_score := clamp score (Num 0) (PERFORMANCE_RETENTION SCORING_CATEGORIES);
     performance_details :=
       {| performancePercent := perfPercent;
          benchmarkStatus := if gt perfPercent (Num 0) then EVALUATED else NO_DATA |} |}.

(** ** Category 3: remaining life / wear level (20 points) *)

Record SsdDetail := { ssd_score : number; ssd_max : number; wearPercent : number }.
Record BatteryDetail := { battery_score : number; battery_max : number; healthPercent : number }.
Record RemainingDetails := { rd_ssd : SsdDetail; rd_battery : BatteryDetail }.
Record RemainingLife := { remaining_score : number; remaining_details : RemainingDetails }.

Definition scoreRemainingLife (diag : NormalizedDiagnostic) : RemainingLife :=
  let ssdScore := scoreLookup (sub (Num 100) (ssd_wear_percentage diag)) SSD_WEAR_SCORING in
  let batteryScore := scoreLookup (battery_health_percent diag) BATTERY_HEALTH_SCORING in
  let score := add ssdScore batteryScore in
  {| remaining_score := clamp score (Num 0) (REMAINING_LIFE SCORING_CATEGORIES);
     remaining_details :=
       {| rd_ssd := {| ssd_score := ssdScore; ssd_max := Num 10;
                       wearPercent := ssd_wear_percentage diag |};
          rd_battery := {| battery_score := batteryScore; battery_max := Num 10;
                           healthPercent := battery_health_percent diag |} |} |}.

(** ** Category 4: physical and thermal condition (10 points) *)

Inductive thermal_status := NORMAL | CONCERNING | CRITICAL.
Record PhysicalDetails := {
  physicalDamage : bool;
  portIntegrity : bool;
  thermalStatus : thermal_status;
  idleTemp : number;
  loadTemp : number
}.
Record PhysicalThermal := { physical_score : number; physical_details : PhysicalDetails }.

(** The mutable locals [score] and [thermalStatus] are threaded
    through the three deduction steps in source order. *)
Definition scorePhysicalThermal (diag : NormalizedDiagnostic) : PhysicalThermal :=
  let score0 := Num 10 in
  let score1 := if physical_damage diag then sub score0 (Num 4) else score0 in
  let score2 := if negb (port_integrity diag) then sub score1 (Num 2) else score1 in
  let idleLimit := idle (normal THERMAL_LIMITS) in
  let loadLimit := load (normal THERMAL_LIMITS) in
  let criticalIdle := idle (critical THERMAL_LIMITS) in
  let criticalLoad := load (critical THERMAL_LIMITS) in
  let idleTemp' := idle_temperature_celsius diag in
  let loadTemp' := load_temperature_celsius diag in
  let '(score3, status) :=
    if gt idleTemp' criticalIdle || gt loadTemp' criticalLoad
    then (sub score2 (Num 4), CRITICAL)
    else if gt idleTemp' idleLimit || gt loadTemp' loadLimit
    then (sub score2 (Num 2), CONCERNING)
    else (score2, NORMAL) in
  {| physical_score := clamp score3 (Num 0) (PHYSICAL_THERMAL SCORING_CATEGORIES);
     physical_details :=
       {| physicalDamage := physical_damage diag || false;
          portIntegrity := port_integrity diag;
          thermalStatus := status;
          idleTemp := idleTemp';
          loadTemp := loadTemp' |} |}.

(** ** Classification *)

Definition classifyReusability (totalScore : number) : classification :=
  let classifications :=
    JS.sort (fun a b => sub (min b) (min a)) REUSABILITY_CLASSIFICATION in
  match find (fun c => ge totalScore (min c)) classifications with
  | Some c => c
  | None => NOT_RECOMMENDED_CLASS
  end.

(** ** Legacy component scoring (backward compatible) *)

Record per_component (A : Type) := { cpu : A; ram : A; storage : A; battery : A }.
#[global] Arguments cpu {A}.
#[global] Arguments ram {A}.
#[global] Arguments storage {A}.
#[global] Arguments battery {A}.

(** [Object.values] of a four-component object, in insertion order. *)
Definition values {A : Type} (c : per_component A) : list A :=
  [cpu c; ram c; storage c; battery c].

Definition WEIGHTS : per_component number :=
  {| cpu := Num 0.30; ram := Num 0.25; storage := Num 0.25; battery := Num 0.20 |}.
Definition MAX_SCORES : per_component number :=
  {| cpu := Num 30; ram := Num 25; storage := Num 25; battery := Num 20 |}.

Record thresholds := { good : number; fair : number }.
Definition COMPONENT_THRESHOLDS : thresholds := {| good := Num 0.8; fair := Num 0.5 |}.
Definition OVERALL_THRESHOLDS : thresholds := {| good := Num 80; fair := Num 55 |}.

Record reuse_thresholds := { reusableMin : number; idealMin : number }.
Definition REUSABILITY : list (string * reuse_thresholds) :=
  [ ("cpu", {| reusableMin := Num 40; idealMin := Num 70 |});
    ("ram", {| reusableMin := Num 4; idealMin := Num 8 |});
    ("storage", {| reusableMin := Num 40; idealMin := Num 70 |});
    ("battery", {| reusableMin := Num 50; idealMin := Num 75 |}) ].

(** [table[key]] on a table written as a literal. *)
Fixpoint lookup_key {A : Type} (key : string) (table : list (string * A)) : option A :=
  match table with
  | [] => None
  | (k, v) :: rest => if String.eqb k key then Some v else lookup_key key rest
  end.

Definition scoreCPU (percent : number) : number :=
  clamp (mul (div percent (Num 100)) (cpu MAX_SCORES)) (Num 0) (cpu MAX_SCORES).
Definition scoreRAM (ramGB : number) : number :=
  clamp (mul (div (Math_min ramGB (Num 32)) (Num 32)) (ram MAX_SCORES)) (Num 0) (ram MAX_SCORES).
Definition scoreStorage (percent : number) : number :=
  clamp (mul (div percent (Num 100)) (storage MAX_SCORES)) (Num 0) (storage MAX_SCORES).
Definition scoreBattery (percent : number) : number :=
  let normalized := clamp (div percent (Num 100)) (Num 0) (Num 1) in
  let curved := match normalized with Num x => Num (Math_pow x 1.8) | NaN => NaN end in
  mul curved (battery MAX_SCORES).

(** ** Health derivation *)

Inductive health := GOOD | FAIR | POOR | UNKNOWN.

Definition health_eqb (a b : health) : bool :=
  match a, b with
  | GOOD, GOOD | FAIR, FAIR | POOR, POOR | UNKNOWN, UNKNOWN => true
  | _, _ => false
  end.

Definition getComponentHealth (score maxScore : number) : health :=
  let ratio := div score maxScore in
  if ge ratio (good COMPONENT_THRESHOLDS) then GOOD
  else if ge ratio (fair COMPONENT_THRESHOLDS) then FAIR else POOR.

Definition getOverallHealth (totalScore : number) : health :=
  if ge totalScore (good OVERALL_THRESHOLDS) then GOOD
  else if ge totalScore (fair OVERALL_THRESHOLDS) then FAIR else POOR.

(** An entry of [LONGEVITY_PENALTIES]: the number [1] under [GOOD], a
    per-component object under [FAIR] and [POOR]. *)
Inductive penalty :=
| PNumber (n : number)
| PObject (by_component : per_component number).

Definition LONGEVITY_PENALTIES (key : health) : option penalty :=
  match key with
  | GOOD => Some (PNumber (Num 1))
  | FAIR => Some (PObject {| battery := Num 0.85; cpu := Num 0.85;
                             storage := Num 0.8; ram := Num 0.85 |})
  | POOR => Some (PObject {| battery := Num 0.6; cpu := Num 0.7;
                             storage := Num 0.8; ram := Num 0.85 |})
  | UNKNOWN => None
  end.

(** The per-component object stored under [POOR], read by the fallbacks
    [LONGEVITY_PENALTIES.POOR.battery] and so on. *)
Definition LONGEVITY_PENALTIES_POOR : per_component number :=
  {| battery := Num 0.6; cpu := Num 0.7; storage := Num 0.8; ram := Num 0.85 |}.

(** [entry || fallback]: a missing entry is falsy, an object is truthy, a
    number is truthy unless it is 0 or [NaN]. *)
Definition penalty_or (entry : option penalty) (fallback : number) : penalty :=
  match entry with
  | None => PNumber fallback
  | Some (PObject o) => PObject o
  | Some (PNumber n) => if ToBoolean (VNumber n) then PNumber n else PNumber fallback
  end.

(** [ToNumber] of a penalty: a plain object converts to [NaN]. *)
Definition penalty_ToNumber (p : penalty) : number :=
  match p with PNumber n => n | PObject _ => NaN end.

Record component_summary := { comp_score : number; comp_health : health }.

Definition estimateLongevityYears (totalScore : number)
    (components : per_component component_summary) : number :=
  let baseYears := mul (div (clamp totalScore (Num 0) (Num 100)) (Num 100)) (Num 6) in
  let penalties :=
    [ penalty_or (LONGEVITY_PENALTIES (comp_health (battery components)))
                 (battery LONGEVITY_PENALTIES_POOR);
      penalty_or (LONGEVITY_PENALTIES (comp_health (cpu components)))
                 (cpu LONGEVITY_PENALTIES_POOR);
      penalty_or (LONGEVITY_PENALTIES (comp_health (storage components)))
                 (storage LONGEVITY_PENALTIES_POOR);
      penalty_or (LONGEVITY_PENALTIES (comp_health (ram components)))
                 (ram LONGEVITY_PENALTIES_POOR) ] in
  let adjusted :=
    Math_max (Num 0)
      (mul baseYears (fold_left (fun a b => mul a (penalty_ToNumber b)) penalties (Num 1))) in
  div (Math_round (mul adjusted (Num 10))) (Num 10).

Inductive sustainability := HIGH | MEDIUM | LOW | SUSTAINABILITY_UNKNOWN.

Definition estimateSustainability (totalScore : number) : sustainability :=
  if ge totalScore (Num 80) then HIGH else if ge totalScore (Num 55) then MEDIUM else LOW.

Definition isReusable (components : per_component component_summary)
    (totalScore : number) : bool :=
  ge totalScore (Num 60)
  && negb (existsb (fun c => health_eqb (comp_health c) POOR) (values components)).

(** ** Reusability assessment *)

Record reusability := { reusable : bool; confidence : number; verdict : string }.

Definition isComponentReusable (component : string) (rawValue : number) : reusability :=
  match lookup_key component REUSABILITY with
  | None => {| reusable := false; confidence := Num 0; verdict := "UNKNOWN" |}
  | Some thresholds =>
      if ge rawValue (idealMin thresholds)
      then {| reusable := true; confidence := Num 95; verdict := "FULLY REUSABLE" |}
      else if ge rawValue (reusableMin thresholds)
      then {| reusable := true; confidence := Num 65; verdict := "CONDITIONALLY REUSABLE" |}
      else {| reusable := false; confidence := Num 90; verdict := "NOT REUSABLE" |}
  end.

(** ** Main API: the legacy evaluation *)

(** The part of a component breakdown that carries data; the display
    texts built by [SUGGESTION_BUILDERS] (sub-metrics, checks, advice)
    are constant strings chosen by the same comparisons and are left out. *)
Record ComponentBreakdown := {
  name : string;
  rawValue : number;
  breakdown_score : number;
  maxScore : number;
  scorePercent : number;
  breakdown_health : health;
  weight : number;
  weightPercent : number;
  breakdown_reusability : reusability
}.

Definition buildLegacyComponentBreakdown (componentName upperName : string)
    (max weight' rawValue' score' : number) (health' : health) : ComponentBreakdown :=
  {| name := upperName;
     rawValue := rawValue';
     breakdown_score := score';
     maxScore := max;
     scorePercent := pct score' max;
     breakdown_health := health';
     weight := weight';
     weightPercent := mul weight' (Num 100);
     breakdown_reusability := isComponentReusable componentName rawValue' |}.

Record SummaryEntry := {
  entry_component : string;
  entry_verdict : string;
  entry_reusable : bool;
  entry_confidence : number
}.

Record ReusabilitySummary := {
  totalComponents : number;
  reusableCount : number;
  nonReusableCount : number;
  overallReusable : bool;
  breakdown : list SummaryEntry
}.

Record Longevity := {
  yearsRemaining : number;
  longevity_sustainability : sustainability;
  longevity_reusable : bool
}.

Record LegacyReport := {
  report_totalScore : number;
  report_health : health;
  report_components : per_component component_summary;
  report_componentBreakdowns : per_component ComponentBreakdown;
  report_reusabilitySummary : ReusabilitySummary;
  report_longevity : Longevity
}.

(** The unrounded weighted total of [evaluateDevice]. *)
Definition weightedTotal (rawScores : per_component number) : number :=
  add (add (add
    (mul (mul (div (cpu rawScores) (cpu MAX_SCORES)) (cpu WEIGHTS)) (Num 100))
    (mul (mul (div (ram rawScores) (ram MAX_SCORES)) (ram WEIGHTS)) (Num 100)))
    (mul (mul (div (storage rawScores) (storage MAX_SCORES)) (storage WEIGHTS)) (Num 100)))
    (mul (mul (div (battery rawScores) (battery MAX_SCORES)) (battery WEIGHTS)) (Num 100)).

Definition evaluateDevice (cpu' ram' storage' battery' : number) : LegacyReport :=
  let rawScores :=
    {| cpu := scoreCPU cpu'; ram := scoreRAM ram';
       storage := scoreStorage storage'; battery := scoreBattery battery' |} in
  let healths :=
    {| cpu := getComponentHealth (cpu rawScores) (cpu MAX_SCORES);
       ram := getComponentHealth (ram rawScores) (ram MAX_SCORES);
       storage := getComponentHealth (storage rawScores) (storage MAX_SCORES);
       battery := getComponentHealth (battery rawScores) (battery MAX_SCORES) |} in
  let components :=
    {| cpu := {| comp_score := toFixed2 (cpu rawScores); comp_health := cpu healths |};
       ram := {| comp_score := toFixed2 (ram rawScores); comp_health := ram healths |};
       storage := {| comp_score := toFixed2 (storage rawScores);
                     comp_health := storage healths |};
       battery := {| comp_score := toFixed2 (battery rawScores);
                     comp_health := battery healths |} |} in
  let totalScore := weightedTotal rawScores in
  let componentBreakdowns :=
    {| cpu := buildLegacyComponentBreakdown "cpu" "CPU" (cpu MAX_SCORES) (cpu WEIGHTS)
                cpu' (cpu rawScores) (cpu healths);
       ram := buildLegacyComponentBreakdown "ram" "RAM" (ram MAX_SCORES) (ram WEIGHTS)
                ram' (ram rawScores) (ram healths);
       storage := buildLegacyComponentBreakdown "storage" "STORAGE" (storage MAX_SCORES)
                    (storage WEIGHTS) storage' (storage rawScores) (storage healths);
       battery := buildLegacyComponentBreakdown "battery" "BATTERY" (battery MAX_SCORES)
                    (battery WEIGHTS) battery' (battery rawScores) (battery healths) |} in
  let reusableCount' :=
    Num (inject_Z (Z.of_nat (length
      (filter (fun c => reusable (breakdown_reusability c)) (values componentBreakdowns))))) in
  let entry key (val : ComponentBreakdown) :=
    {| entry_component := key;
       entry_verdict := verdict (breakdown_reusability val);
       entry_reusable := reusable (breakdown_reusability val);
       entry_confidence := confidence (breakdown_reusability val) |} in
  {| report_totalScore := Math_round totalScore;
     report_health := getOverallHealth totalScore;
     report_components := components;
     report_componentBreakdowns := componentBreakdowns;
     report_reusabilitySummary :=
       {| totalComponents := Num 4;
          reusableCount := reusableCount';
          nonReusableCount := sub (Num 4) reusableCount';
          overallReusable := isReusable components totalScore;
          breakdown :=
            [ entry "cpu" (cpu componentBreakdowns); entry "ram" (ram componentBreakdowns);
              entry "storage" (storage componentBreakdowns);
              entry "battery" (battery componentBreakdowns) ] |};
     report_longevity :=
       {| yearsRemaining := estimateLongevityYears totalScore components;
          longevity_sustainability := estimateSustainability totalScore;
          longevity_reusable := isReusable components totalScore |} |}.

(** ** Main API: the standardized evaluation *)

(** A template literal: constant text with interpolated numbers. *)
Inductive piece := Lit (s : string) | Interp (n : number).

Record Recommendation := {
  priority : string;
  action : string;
  rec_description : list piece
}.

Definition generateRecommendations (score' : number) (classification' : classification)
    (functional : FunctionalIntegrity) (remaining : RemainingLife)
    (physical : PhysicalThermal) : list Recommendation :=
  let fd := functional_details functional in
  let rd := remaining_details remaining in
  let pd := physical_details physical in
  let push (c : bool) (r : Recommendation) := if c then [r] else [] in
  push (lt score' (Num 50))
    {| priority := "CRITICAL"; action := "DO NOT REUSE";
       rec_description := [Lit "Significant issues prevent safe reuse."] |}
  ++ push (lt (storage_score (fd_storage fd)) (Num 5))
    {| priority := "HIGH"; action := "REPLACE STORAGE";
       rec_description := [Lit "Critical SMART failures detected."] |}
  ++ push (gt (ram_errors (fd_ram fd)) (Num 0))
    {| priority := "HIGH"; action := "REPLACE RAM";
       rec_description := [Interp (ram_errors (fd_ram fd)); Lit " memory errors found."] |}
  ++ push (negb (ToBoolean (cpu_stable (fd_cpu fd))))
    {| priority := "HIGH"; action := "CPU FAILED";
       rec_description := [Lit "CPU stability test failed."] |}
  ++ push (gt (wearPercent (rd_ssd rd)) (Num 80))
    {| priority := "HIGH"; action := "SSD END OF LIFE";
       rec_description := [Lit "SSD wear at "; Interp (wearPercent (rd_ssd rd)); Lit "%."] |}
  ++ push (lt (healthPercent (rd_battery rd)) (Num 60))
    {| priority := "HIGH"; action := "REPLACE BATTERY";
       rec_description := [Lit "Battery critically low."] |}
  ++ push (match thermalStatus pd with CRITICAL => true | _ => false end)
    {| priority := "HIGH"; action := "THERMAL ISSUE";
       rec_description := [Lit "Temps critical: "; Interp (idleTemp pd); Lit "°C idle, ";
                           Interp (loadTemp pd); Lit "°C load."] |}
  ++ push (physicalDamage pd)
    {| priority := "MEDIUM"; action := "INSPECT DAMAGE";
       rec_description := [Lit "Physical damage detected."] |}
  ++ (if ge score' (Num 85)
      then [{| priority := "LOW"; action := "READY FOR REUSE";
               rec_description := [Lit "Excellent condition."] |}]
      else if ge score' (Num 70)
      then [{| priority := "LOW"; action := "MINOR UPGRADES";
               rec_description := [Lit "Consider component upgrades."] |}]
      else if ge score' (Num 50)
      then [{| priority := "MEDIUM"; action := "LIMITED USE";
               rec_description := [Lit "Non-critical applications only."] |}]
      else []).

Inductive tier := HIGH_GRADE | REUSABLE | LIMITED | NOT_RECOMMENDED.

Record ClassificationView := {
  level : string;
  view_description : string;
  minScore : number;
  view_tier : tier
}.

Record Category (D : Type) := {
  category_label : string;
  category_score : number;
  category_maxScore : number;
  percentage : number;
  category_details : D
}.
#[global] Arguments category_score {D}.
#[global] Arguments percentage {D}.
#[global] Arguments category_details {D}.

Record Categories := {
  functionalIntegrity : Category FunctionalDetails;
  performanceRetention : Category PerformanceDetails;
  remainingLife : Category RemainingDetails;
  physicalThermal : Category PhysicalDetails
}.

(** The [calculations] object repeats the four category scores and the
    total as text and is left out. *)
Record StandardizedResult := {
  model : string;
  totalScore : number;
  result_classification : ClassificationView;
  categories : Categories;
  summary : list piece;
  recommendedActions : list Recommendation
}.

(** The inline threshold chain that tags the tier. *)
Definition tierOf (totalScore' : number) : tier :=
  if ge totalScore' (Num 85) then HIGH_GRADE
  else if ge totalScore' (Num 70) then REUSABLE
  else if ge totalScore' (Num 50) then LIMITED
  else NOT_RECOMMENDED.

Definition evaluateDeviceStandardized (diagnostics : gmap string value) : StandardizedResult :=
  let diag := normalizeInput diagnostics in
  let functional := scoreFunctionalIntegrity diag in
  let performance := scorePerformanceRetention diag in
  let remaining := scoreRemainingLife diag in
  let physical := scorePhysicalThermal diag in
  let totalScore' :=
    add (add (add (functional_score functional) (performance_score performance))
             (remaining_score remaining)) (physical_score physical) in
  let classification' := classifyReusability totalScore' in
  {| model := "STANDARDIZED_REUSABILITY_EVALUATION";
     totalScore := totalScore';
     result_classification :=
       {| level := label classification';
          view_description := description classification';
          minScore := min classification';
          view_tier := tierOf totalScore' |};
     categories :=
       {| functionalIntegrity :=
            {| category_label := "Functional Integrity";
               category_score := functional_score functional;
               category_maxScore := FUNCTIONAL_INTEGRITY SCORING_CATEGORIES;
               percentage := pct (functional_score functional)
                                 (FUNCTIONAL_INTEGRITY SCORING_CATEGORIES);
               category_details := functional_details functional |};
          performanceRetention :=
            {| category_label := "Performance Retention";
               category_score := performance_score performance;
               category_maxScore := PERFORMANCE_RETENTION SCORING_CATEGORIES;
               percentage :=
                 (let p := performancePercent (performance_details performance) in
                  if ToBoolean (VNumber p) then p else Num 0);
               category_details := performance_details performance |};
          remainingLife :=
            {| category_label := "Remaining Life / Wear Level";
               category_score := remaining_score remaining;
               category_maxScore := REMAINING_LIFE SCORING_CATEGORIES;
               percentage := pct (remaining_score remaining)
                                 (REMAINING_LIFE SCORING_CATEGORIES);
               category_details := remaining_details remaining |};
          physicalThermal :=
            {| category_label := "Physical & Thermal Condition";
               category_score := physical_score physical;
               category_maxScore := PHYSICAL_THERMAL SCORING_CATEGORIES;
               percentage := pct (physical_score physical)
                                 (PHYSICAL_THERMAL SCORING_CATEGORIES);
               category_details := physical_details physical |} |};
     summary := [Lit "Score: "; Interp totalScore'; Lit "/100 | ";
                 Lit (label classification'); Lit " | "; Lit (description classification')];
     recommendedActions :=
       generateRecommendations totalScore' classification' functional remaining physical |}.

End Engine.
End HealthRules.

(* ================================================================== *)
(** * The longevity estimate before the penalty table *)
(* ================================================================== *)

Module EarlierRevision.
Import JS.
Import HealthRules.

(** [estimateLongevityYears] as the previous revision of
    [backend/rules/healthRules.js] has it: every penalty is a number
    chosen by comparing the label. *)
Definition estimateLongevityYears (totalScore : number)
    (components : per_component component_summary) : number :=
  let baseYears := mul (div (clamp totalScore (Num 0) (Num 100)) (Num 100)) (Num 6) in
  let batteryHealth := comp_health (battery components) in
  let batteryPenalty :=
    if health_eqb batteryHealth POOR then Num 0.6
    else if health_eqb batteryHealth FAIR then Num 0.85 else Num 1 in
  let cpuPenalty :=
    if health_eqb (comp_health (cpu components)) POOR then Num 0.7 else Num 1 in
  let storagePenalty :=
    if health_eqb (comp_health (storage components)) POOR then Num 0.8 else Num 1 in
  let ramPenalty :=
    if health_eqb (comp_health (ram components)) POOR then Num 0.85 else Num 1 in
  let adjusted :=
    mul (mul (mul (mul baseYears batteryPenalty) cpuPenalty) storagePenalty) ramPenalty in
  Math_max (Num 0) (div (Math_round (mul adjusted (Num 10))) (Num 10)).

End EarlierRevision.

(* ================================================================== *)
(** * The dispatcher ([backend/services/evaluateDevice.js]) *)
(* ================================================================== *)

Module Service.
Import JS.
Import HealthRules.

(** A thrown [Error]; only its [message] is observed. The texts are the
    ones V8 prints. *)
Record exn := { message : string }.

Definition null_read (key : string) : exn :=
  {| message := "Cannot read properties of null (reading '" ++ key ++ "')" |}.
Definition undefined_read (key : string) : exn :=
  {| message := "Cannot read properties of undefined (reading '" ++ key ++ "')" |}.
Definition not_a_function (what : string) : exn :=
  {| message := what ++ " is not a function" |}.

(** What a caller can pass: a primitive, or an object with the standard
    prototype and the given own properties. *)
Inductive jsinput :=
| Primitive (v : value)
| Object (props : gmap string value).

(** [input.key], a data property that [Object.prototype] and the
    primitive wrappers do not define. *)
Definition read (input : jsinput) (key : string) : exn + value :=
  match input with
  | Object props => inr (get props key)
  | Primitive VNull => inl (null_read key)
  | Primitive VUndefined => inl (undefined_read key)
  | Primitive _ => inr VUndefined
  end.

(** [input.hasOwnProperty(key)]: the callee is looked up on [input]
    first, so an own property of that name shadows the built-in, and an
    own property holding a JSON scalar is not callable. *)
Definition hasOwnProperty (input : jsinput) (key : string) : exn + bool :=
  match input with
  | Primitive VNull => inl (null_read "hasOwnProperty")
  | Primitive VUndefined => inl (undefined_read "hasOwnProperty")
  | Primitive _ => inr false
  | Object props =>
      match props !! "hasOwnProperty" with
      | Some _ => inl (not_a_function "input.hasOwnProperty")
      | None => inr (bool_decide (is_Some (props !! key)))
      end
  end.

(** [keys.some(f)] for a callback that may throw: stops at the first
    [true], and at the first exception. *)
Fixpoint some (f : string -> exn + bool) (keys : list string) : exn + bool :=
  match keys with
  | [] => inr false
  | key :: rest =>
      match f key with
      | inl e => inl e
      | inr true => inr true
      | inr false => some f rest
      end
  end.

Definition standardizedKeys : list string :=
  [ "storage_smart_status"; "ram_test_errors"; "cpu_stress_stable";
    "gpu_stress_stable"; "performance_percentage"; "ssd_wear_percentage";
    "battery_health_percent"; "physical_damage"; "idle_temperature_celsius" ].

Definition isStandardizedInput (input : jsinput) : exn + bool :=
  some (hasOwnProperty input) standardizedKeys.

Record Overall := {
  overall_health : health;
  total_score : number;
  overall_reusable : bool;
  overall_classification : option string;
  longevity_years : option number;
  overall_sustainability : option sustainability
}.

(** The three envelopes share one record; a field an envelope does not
    carry is [None]. *)
Record Envelope := {
  error : option string;
  evaluationModel : string;
  standardized : option StandardizedResult;
  components : option (per_component component_summary);
  componentBreakdowns : option (per_component ComponentBreakdown);
  reusabilitySummary : option ReusabilitySummary;
  overall : Overall
}.

Definition bind {A B : Type} (m : exn + A) (k : A -> exn + B) : exn + B :=
  match m with inl e => inl e | inr a => k a end.
Notation "'let?' x := m 'in' k" := (bind m (fun x => k))
  (at level 10, x name, k at level 200).

Section Dispatcher.
Variable StringToNumber : string -> number.
(** The two pipelines imported from the scoring engine; as far as the
    dispatcher knows, either may throw. *)
Variable evaluateDeviceStandardized : jsinput -> exn + StandardizedResult.
Variable scoreDevice : number -> number -> number -> number -> exn + LegacyReport.

Abbreviation Number := (JS.ToNumber StringToNumber).

(** [Number(input.a ?? input.b ?? 0)]. *)
Definition legacyField (input : jsinput) (a b : string) : exn + number :=
  let? x := read input a in
  match x with
  | VUndefined | VNull =>
      let? y := read input b in
      inr (Number (coalesce y (VNumber (Num 0))))
  | _ => inr (Number x)
  end.

(** The body of the [try] block. *)
Definition try_block (input : jsinput) : exn + Envelope :=
  let? std := isStandardizedInput input in
  if std then
    let? result := evaluateDeviceStandardized input in
    inr {| error := None;
           evaluationModel := "STANDARDIZED_HARDWARE_REUSABILITY";
           standardized := Some result;
           components := None;
           componentBreakdowns := None;
           reusabilitySummary := None;
           overall :=
             {| overall_health :=
                  if ge (totalScore result) (Num 80) then GOOD
                  else if ge (totalScore result) (Num 55) then FAIR else POOR;
                total_score := totalScore result;
                overall_reusable := ge (totalScore result) (Num 50);
                overall_classification := Some (level (result_classification result));
                longevity_years := None;
                overall_sustainability := None |} |}
  else
    let? cpu' := legacyField input "cpu_usage" "cpu" in
    let? ram' := legacyField input "ram_gb" "ram" in
    let? storage' := legacyField input "storage_health" "storage" in
    let? battery' := legacyField input "battery_health" "battery" in
    let? report := scoreDevice cpu' ram' storage' battery' in
    inr {| error := None;
           evaluationModel := "LEGACY_COMPONENT_HEALTH";
           standardized := None;
           components := Some (report_components report);
           componentBreakdowns := Some (report_componentBreakdowns report);
           reusabilitySummary := Some (report_reusabilitySummary report);
           overall :=
             {| overall_health := report_health report;
                total_score := report_totalScore report;
                overall_reusable := longevity_reusable (report_longevity report);
                overall_classification := None;
                longevity_years := Some (yearsRemaining (report_longevity report));
                overall_sustainability :=
                  Some (longevity_sustainability (report_longevity report)) |} |}.

(** The envelope built by the [catch] clause. *)
Definition errorEnvelope (e : exn) : Envelope :=
  {| error := Some (message e);
     evaluationModel := "ERROR";
     standardized := None;
     components := None;
     componentBreakdowns := None;
     reusabilitySummary := None;
     overall :=
       {| overall_health := UNKNOWN;
          total_score := Num 0;
          overall_reusable := false;
          overall_classification := None;
          longevity_years := None;
          overall_sustainability := None |} |}.

(** The exported function: the default parameter replaces [undefined]
    by the empty object, and the [catch] clause turns an exception into
    the error envelope ([console.error] only logs). *)
Definition dispatch (input : jsinput) : Envelope :=
  let input' := match input with Primitive VUndefined => Object ∅ | _ => input end in
  match try_block input' with
  | inr envelope => envelope
  | inl e => errorEnvelope e
  end.

End Dispatcher.

(** [normalizeInput(input = {})] reached with something that is not an
    object: the default applies to [undefined], [null] throws at the
    first property read, another primitive reads as the empty record. *)
Definition standardizedPipeline (StringToNumber : string -> number)
    (input : jsinput) : exn + StandardizedResult :=
  match input with
  | Object props => inr (HealthRules.evaluateDeviceStandardized StringToNumber props)
  | Primitive VNull => inl (null_read "storage_smart_status")
  | Primitive _ => inr (HealthRules.evaluateDeviceStandardized StringToNumber ∅)
  end.

(** The dispatcher linked with the scoring engine. *)
Definition evaluateDevice (StringToNumber : string -> number) (Math_pow : Q -> Q -> Q)
    (input : jsinput) : Envelope :=
  dispatch StringToNumber (standardizedPipeline StringToNumber)
    (fun cpu' ram' storage' battery' =>
       inr (HealthRules.evaluateDevice Math_pow cpu' ram' storage' battery'))
    input.

End Service.

(* ================================================================== *)
(** * The previous revision of the legacy pipeline *)
(* ================================================================== *)

(** The previous revisions of [backend/rules/healthRules.js] and of
    [backend/services/evaluateDevice.js]. The component scorers, the
    health derivation, [estimateSustainability] and
    [isComponentReusable] read the same in both revisions and are shared
    with [HealthRules]; what differs is modelled here. *)
Module EarlierPipeline.
Import JS.
Import HealthRules.

(** [isReusable]: an early return on [totalScore < 60]. *)
Definition isReusable (components : per_component component_summary)
    (totalScore : number) : bool :=
  if lt totalScore (Num 60) then false
  else negb (existsb (fun c => health_eqb (comp_health c) POOR) (values components)).

(** The data of [buildCpuBreakdown] and its three siblings (the display
    texts are left out, as in [HealthRules]). *)
Definition buildBreakdown (component name' : string) (max weight' rawValue' score' : number)
    (health' : health) : ComponentBreakdown :=
  {| name := name';
     rawValue := rawValue';
     breakdown_score := score';
     maxScore := max;
     scorePercent := pct score' max;
     breakdown_health := health';
     weight := weight';
     weightPercent := mul weight' (Num 100);
     breakdown_reusability := isComponentReusable component rawValue' |}.

Section Engine.
Variable Math_pow : Q -> Q -> Q.

Definition evaluateDevice (cpu' ram' storage' battery' : number) : LegacyReport :=
  let rawScores :=
    {| cpu := scoreCPU cpu'; ram := scoreRAM ram';
       storage := scoreStorage storage'; battery := scoreBattery Math_pow battery' |} in
  let healths :=
    {| cpu := getComponentHealth (cpu rawScores) (cpu MAX_SCORES);
       ram := getComponentHealth (ram rawScores) (ram MAX_SCORES);
       storage := getComponentHealth (storage rawScores) (storage MAX_SCORES);
       battery := getComponentHealth (battery rawScores) (battery MAX_SCORES) |} in
  let components :=
    {| cpu := {| comp_score := toFixed2 (cpu rawScores); comp_health := cpu healths |};
       ram := {| comp_score := toFixed2 (ram rawScores); comp_health := ram healths |};
       storage := {| comp_score := toFixed2 (storage rawScores);
                     comp_health := storage healths |};
       battery := {| comp_score := toFixed2 (battery rawScores);
                     comp_health := battery healths |} |} in
  let totalScore := weightedTotal rawScores in
  let componentBreakdowns :=
    {| cpu := buildBreakdown "cpu" "CPU" (cpu MAX_SCORES) (cpu WEIGHTS)
                cpu' (toFixed2 (cpu rawScores)) (cpu healths);
       ram := buildBreakdown "ram" "RAM" (ram MAX_SCORES) (ram WEIGHTS)
                ram' (toFixed2 (ram rawScores)) (ram healths);
       storage := buildBreakdown "storage" "Storage" (storage MAX_SCORES) (storage WEIGHTS)
                    storage' (toFixed2 (storage rawScores)) (storage healths);
       battery := buildBreakdown "battery" "Battery" (battery MAX_SCORES) (battery WEIGHTS)
                    battery' (toFixed2 (battery rawScores)) (battery healths) |} in
  let reusableCount' :=
    Num (inject_Z (Z.of_nat (length
      (filter (fun c => reusable (breakdown_reusability c)) (values componentBreakdowns))))) in
  let entry key (val : ComponentBreakdown) :=
    {| entry_component := key;
       entry_verdict := verdict (breakdown_reusability val);
       entry_reusable := reusable (breakdown_reusability val);
       entry_confidence := confidence (breakdown_reusability val) |} in
  {| report_totalScore := Math_round totalScore;
     report_health := getOverallHealth totalScore;
     report_components := components;
     report_componentBreakdowns := componentBreakdowns;
     report_reusabilitySummary :=
       {| totalComponents := Num 4;
          reusableCount := reusableCount';
          nonReusableCount := sub (Num 4) reusableCount';
          overallReusable := isReusable components totalScore;
          breakdown :=
            [ entry "cpu" (cpu componentBreakdowns); entry "ram" (ram componentBreakdowns);
              entry "storage" (storage componentBreakdowns);
              entry "battery" (battery componentBreakdowns) ] |};
     report_longevity :=
       {| yearsRemaining := EarlierRevision.estimateLongevityYears totalScore components;
          longevity_sustainability := estimateSustainability totalScore;
          longevity_reusable := isReusable components totalScore |} |}.

Variable StringToNumber : string -> number.



(** The envelope of the previous service: no model tag. *)
Record Envelope := {
  components : per_component component_summary;
  componentBreakdowns : per_component ComponentBreakdown;
  reusabilitySummary : ReusabilitySummary;
  overall : Service.Overall
}.



End Engine.
End EarlierPipeline.

(* ================================================================== *)
(** * The frontend rules and the score card *)
(* ================================================================== *)

Module Frontend.
Import JS.

Record score_band := { band_min : number; band_max : number }.

(** An entry of [REUSABILITY_TIERS]. *)
Record reusability_tier := {
  tier_score : score_band;
  tier_label : string;
  tier_description : string;
  tier_badge : string;
  tier_color : string
}.

Definition HIGH_GRADE_TIER : reusability_tier :=
  {| tier_score := {| band_min := Num 85; band_max := Num 100 |};
     tier_label := "High-grade reusable";
     tier_description := "Excellent condition, ready for immediate reuse";
     tier_badge := "✓ Excellent";
     tier_color := "#10b981" |}.
Definition REUSABLE_TIER : reusability_tier :=
  {| tier_score := {| band_min := Num 70; band_max := Num 84 |};
     tier_label := "Reusable";
     tier_description := "Good condition, minor upgrades recommended";
     tier_badge := "Good";
     tier_color := "#3b82f6" |}.
Definition LIMITED_TIER : reusability_tier :=
  {| tier_score := {| band_min := Num 50; band_max := Num 69 |};
     tier_label := "Limited reuse";
     tier_description := "Functional but with notable limitations";
     tier_badge := "Limited";
     tier_color := "#f59e0b" |}.
Definition NOT_RECOMMENDED_TIER : reusability_tier :=
  {| tier_score := {| band_min := Num 0; band_max := Num 49 |};
     tier_label := "Not recommended";
     tier_description := "Significant issues present, reuse not advised";
     tier_badge := "⚠ Not Recommended";
     tier_color := "#ef4444" |}.

(** The object [REUSABILITY_TIERS], key by key in insertion order. *)
Definition REUSABILITY_TIERS : list (string * reusability_tier) :=
  [ ("HIGH_GRADE", HIGH_GRADE_TIER); ("REUSABLE", REUSABLE_TIER);
    ("LIMITED", LIMITED_TIER); ("NOT_RECOMMENDED", NOT_RECOMMENDED_TIER) ].

Definition SORTED_TIERS : list reusability_tier :=
  JS.sort (fun a b => sub (band_min (tier_score b)) (band_min (tier_score a)))
          (map snd REUSABILITY_TIERS).

Definition classifyByStandardized (score : number) : reusability_tier :=
  match find (fun tier => ge score (band_min (tier_score tier))) SORTED_TIERS with
  | Some tier => tier
  | None => NOT_RECOMMENDED_TIER
  end.

(** [a === b] on two of the tier objects: the four objects carry four
    different labels, so comparing the labels decides their identity. *)
Definition same_tier (a b : reusability_tier) : bool :=
  String.eqb (tier_label a) (tier_label b).

Record Badge := {
  badge : string;
  color : string;
  badge_label : string;
  badge_description : string;
  badge_tier : option string
}.

Definition getReusabilityBadge (score : number) : Badge :=
  let tier := classifyByStandardized score in
  let tierKey :=
    option_map fst (find (fun entry => same_tier (snd entry) tier) REUSABILITY_TIERS) in
  {| badge := tier_badge tier;
     color := tier_color tier;
     badge_label := tier_label tier;
     badge_description := tier_description tier;
     badge_tier := tierKey |}.

(** The two colour choices of the standardized score card
    ([StandardizedScoreCard]): by score and by tier tag. *)
Definition getScoreColor (score : number) : string :=
  if ge score (Num 85) then "#10B981"
  else if ge score (Num 70) then "#3B82F6"
  else if ge score (Num 50) then "#F59E0B"
  else "#EF4444".

Definition getClassificationBg (tier : string) : string :=
  if String.eqb tier "HIGH_GRADE" then "#10B98120"
  else if String.eqb tier "REUSABLE" then "#3B82F620"
  else if String.eqb tier "LIMITED" then "#F59E0B20"
  else "#EF444420".

End Frontend.

(* ================================================================== *)
(** * Scenarios: closed inputs used by the examples *)
(* ================================================================== *)

Module Scenarios.
Import JS.
Import HealthRules.

(** Stand-ins for the two runtime parameters. No example below feeds a
    string to a numeric field, so [ToNumber] never reaches the first. *)
Definition noNumericStrings (s : string) : number := NaN.
Definition squareCurve (x exponent : Q) : Q := (x * x)%Q.

(** What [normalizeInput] returns on the empty object. *)
Definition defaults : NormalizedDiagnostic :=
  {| storage_smart_status := VString "UNKNOWN";
     ram_test_errors := Num 0;
     cpu_stress_stable := VBool false;
     cpu_throttling := VBool false;
     gpu_stress_stable := VBool false;
     gpu_artifacts := VBool false;
     performance_percentage := Num 0;
     ssd_wear_percentage := Num 0;
     battery_health_percent := Num 0;
     physical_damage := false;
     port_integrity := true;
     idle_temperature_celsius := Num 0;
     load_temperature_celsius := Num 0 |}.

Definition withPerformance (p : number) (d : NormalizedDiagnostic) : NormalizedDiagnostic :=
  {| storage_smart_status := storage_smart_status d;
     ram_test_errors := ram_test_errors d;
     cpu_stress_stable := cpu_stress_stable d;
     cpu_throttling := cpu_throttling d;
     gpu_stress_stable := gpu_stress_stable d;
     gpu_artifacts := gpu_artifacts d;
     performance_percentage := p;
     ssd_wear_percentage := ssd_wear_percentage d;
     battery_health_percent := battery_health_percent d;
     physical_damage := physical_damage d;
     port_integrity := port_integrity d;
     idle_temperature_celsius := idle_temperature_celsius d;
     load_temperature_celsius := load_temperature_celsius d |}.

Definition withWear (ssd battery' : number) (d : NormalizedDiagnostic) : NormalizedDiagnostic :=
  {| storage_smart_status := storage_smart_status d;
     ram_test_errors := ram_test_errors d;
     cpu_stress_stable := cpu_stress_stable d;
     cpu_throttling := cpu_throttling d;
     gpu_stress_stable := gpu_stress_stable d;
     gpu_artifacts := gpu_artifacts d;
     performance_percentage := performance_percentage d;
     ssd_wear_percentage := ssd;
     battery_health_percent := battery';
     physical_damage := physical_damage d;
     port_integrity := port_integrity d;
     idle_temperature_celsius := idle_temperature_celsius d;
     load_temperature_celsius := load_temperature_celsius d |}.

Definition withTemperatures (idle' load' : number) (d : NormalizedDiagnostic)
    : NormalizedDiagnostic :=
  {| storage_smart_status := storage_smart_status d;
     ram_test_errors := ram_test_errors d;
     cpu_stress_stable := cpu_stress_stable d;
     cpu_throttling := cpu_throttling d;
     gpu_stress_stable := gpu_stress_stable d;
     gpu_artifacts := gpu_artifacts d;
     performance_percentage := performance_percentage d;
     ssd_wear_percentage := ssd_wear_percentage d;
     battery_health_percent := battery_health_percent d;
     physical_damage := physical_damage d;
     port_integrity := port_integrity d;
     idle_temperature_celsius := idle';
     load_temperature_celsius := load' |}.

(** The payloads of the repository's test suite
    ([backend/testStandardizedEvaluation.js]). *)
Definition standardizedHighGrade : gmap string value :=
  list_to_map
    [ ("storage_smart_status", VString "GOOD"); ("ram_test_errors", VNumber (Num 0));
      ("cpu_stress_stable", VBool true); ("cpu_throttling", VBool false);
      ("gpu_stress_stable", VBool true); ("gpu_artifacts", VBool false);
      ("performance_percentage", VNumber (Num 98)); ("ssd_wear_percentage", VNumber (Num 15));
      ("battery_health_percent", VNumber (Num 92)); ("physical_damage", VBool false);
      ("port_integrity", VBool true); ("idle_temperature_celsius", VNumber (Num 35));
      ("load_temperature_celsius", VNumber (Num 72)) ].

Definition standardizedLimited : gmap string value :=
  list_to_map
    [ ("storage_smart_status", VString "WARNING"); ("ram_test_errors", VNumber (Num 1));
      ("cpu_stress_stable", VBool false); ("cpu_throttling", VBool true);
      ("gpu_stress_stable", VBool true); ("gpu_artifacts", VBool false);
      ("performance_percentage", VNumber (Num 68)); ("ssd_wear_percentage", VNumber (Num 55));
      ("battery_health_percent", VNumber (Num 62)); ("physical_damage", VBool false);
      ("port_integrity", VBool true); ("idle_temperature_celsius", VNumber (Num 55));
      ("load_temperature_celsius", VNumber (Num 88)) ].

Definition standardizedNotRecommended : gmap string value :=
  list_to_map
    [ ("storage_smart_status", VString "FAILED"); ("ram_test_errors", VNumber (Num 5));
      ("cpu_stress_stable", VBool false); ("cpu_throttling", VBool true);
      ("gpu_stress_stable", VBool false); ("gpu_artifacts", VBool true);
      ("performance_percentage", VNumber (Num 35)); ("ssd_wear_percentage", VNumber (Num 85));
      ("battery_health_percent", VNumber (Num 25)); ("physical_damage", VBool true);
      ("port_integrity", VBool false); ("idle_temperature_celsius", VNumber (Num 65));
      ("load_temperature_celsius", VNumber (Num 98)) ].

Definition legacyInput : gmap string value :=
  list_to_map
    [ ("cpu", VNumber (Num 65)); ("ram", VNumber (Num 8));
      ("storage", VNumber (Num 75)); ("battery", VNumber (Num 80)) ].

(** Two payloads that differ only in the throttling flag: the string
    ["yes"] against [false]. *)
Definition throttlingYes : gmap string value :=
  list_to_map [ ("cpu_stress_stable", VBool false); ("cpu_throttling", VString "yes") ].
Definition throttlingFalse : gmap string value :=
  list_to_map [ ("cpu_stress_stable", VBool false); ("cpu_throttling", VBool false) ].

(** Two payloads that differ only in the stability flag. *)
Definition stableYes : gmap string value :=
  list_to_map [ ("cpu_stress_stable", VString "yes") ].
Definition stableFalse : gmap string value :=
  list_to_map [ ("cpu_stress_stable", VBool false) ].

(** A standardized payload that also owns a key named [hasOwnProperty],
    as [JSON.parse] builds it from
    [{"hasOwnProperty": 1, "storage_smart_status": "GOOD"}]. *)
Definition shadowedStandardized : gmap string value :=
  list_to_map [ ("hasOwnProperty", VNumber (Num 1)); ("storage_smart_status", VString "GOOD") ].

(** A standardized-shaped payload whose fields are all [undefined]. *)
Definition allUndefined : gmap string value :=
  list_to_map (map (fun key => (key, VUndefined)) Service.standardizedKeys).

End Scenarios.

(* ================================================================== *)
(** * Notions used to state the properties *)
(* ================================================================== *)

Import JS.
Import HealthRules.
Import Scenarios.

(** The tiers are ordered from worst to best. *)
Definition tier_rank (t : tier) : nat :=
  match t with
  | NOT_RECOMMENDED => 0
  | LIMITED => 1
  | REUSABLE => 2
  | HIGH_GRADE => 3
  end.

(** The entry of [REUSABILITY_CLASSIFICATION] stored under a tier's name. *)
Definition class_of_tier (t : tier) : classification :=
  match t with
  | HIGH_GRADE => HIGH_GRADE_CLASS
  | REUSABLE => REUSABLE_CLASS
  | LIMITED => LIMITED_CLASS
  | NOT_RECOMMENDED => NOT_RECOMMENDED_CLASS
  end.

(** The points taken off before the thermal assessment. *)
Definition physicalDeductions (diag : NormalizedDiagnostic) : Q :=
  ((if physical_damage diag then 4 else 0) + (if port_integrity diag then 0 else 2))%Q.

(** The SSD table of the specification: a descending lookup on the
    remaining life [100 - wear]. *)
Definition SSD_REMAINING_LIFE_SCORING_spec : list rule :=
  [ {| threshold := Num 80; score := Num 10 |};
    {| threshold := Num 60; score := Num 7 |};
    {| threshold := Num 40; score := Num 4 |} ].

Definition ssdScore_spec (wear : number) : number :=
  scoreLookup (sub (Num 100) wear) SSD_REMAINING_LIFE_SCORING_spec.

(** The estimate as the specification words it: the factor of a
    component is read from the row of its health label. *)
Definition penaltyFactor_spec (component : per_component number -> number)
    (h : health) : number :=
  match h with
  | GOOD => Num 1
  | FAIR => component {| battery := Num 0.85; cpu := Num 0.85;
                         storage := Num 0.8; ram := Num 0.85 |}
  | POOR | UNKNOWN => component LONGEVITY_PENALTIES_POOR
  end.

Definition estimateLongevityYears_spec (totalScore : number)
    (components : per_component component_summary) : number :=
  let baseYears := mul (div (clamp totalScore (Num 0) (Num 100)) (Num 100)) (Num 6) in
  let product :=
    mul (mul (mul (penaltyFactor_spec battery (comp_health (battery components)))
                  (penaltyFactor_spec cpu (comp_health (cpu components))))
             (penaltyFactor_spec storage (comp_health (storage components))))
        (penaltyFactor_spec ram (comp_health (ram components))) in
  div (Math_round (mul (Math_max (Num 0) (mul baseYears product)) (Num 10))) (Num 10).

(** Does the object own one of the standardized keys? *)
Definition ownsStandardizedKey (props : gmap string value) : bool :=
  existsb (fun key => bool_decide (is_Some (props !! key))) Service.standardizedKeys.

(** The input after the default parameter has been applied. *)
Definition defaulted (input : Service.jsinput) : Service.jsinput :=
  match input with
  | Service.Primitive VUndefined => Service.Object ∅
  | _ => input
  end.

(** [NaN], or a number of the interval. *)
Definition nan_or_between (lo hi : Q) (n : number) : Prop :=
  match n with Num q => (lo <= q /\ q <= hi)%Q | NaN => True end.

(** [NaN], or a number that is not negative. *)
Definition nan_or_nonnegative (n : number) : Prop :=
  match n with Num q => (0 <= q)%Q | NaN => True end.

(** Order on numbers; [NaN] is not comparable. *)
Definition number_le (a b : number) : Prop :=
  match a, b with Num x, Num y => (x <= y)%Q | _, _ => False end.

(** [null] or [undefined]. *)
Definition nullish (v : value) : Prop := v = VUndefined \/ v = VNull.

(** The thirteen keys that [normalizeInput] reads. *)
Definition fieldKeys : list string :=
  [ "storage_smart_status"; "ram_test_errors"; "cpu_stress_stable"; "cpu_throttling";
    "gpu_stress_stable"; "gpu_artifacts"; "performance_percentage"; "ssd_wear_percentage";
    "battery_health_percent"; "physical_damage"; "port_integrity";
    "idle_temperature_celsius"; "load_temperature_celsius" ].

(** A scoring table in descending order: finite thresholds and scores,
    no score below 0, and every later row has a threshold and a score
    not above those of an earlier one. *)
Fixpoint descending (rules : list rule) : Prop :=
  match rules with
  | [] => True
  | r :: rest =>
      (exists t s,
         threshold r = Num t /\ score r = Num s /\ (0 <= s)%Q
         /\ forall r', In r' rest ->
              exists t' s', threshold r' = Num t' /\ score r' = Num s'
                            /\ (t' <= t)%Q /\ (s' <= s)%Q)
      /\ descending rest
  end.

(** The points taken off for a thermal status. *)
Definition thermalPenalty (status : thermal_status) : Q :=
  match status with CRITICAL => 4 | CONCERNING => 2 | NORMAL => 0 end.

(** The tag string that stands for a tier in the serialised result. *)
Definition tier_tag (t : tier) : string :=
  match t with
  | HIGH_GRADE => "HIGH_GRADE"
  | REUSABLE => "REUSABLE"
  | LIMITED => "LIMITED"
  | NOT_RECOMMENDED => "NOT_RECOMMENDED"
  end.

(** The pairs of keys under which the dispatcher accepts a legacy
    reading: the first is preferred, the second is the fallback. *)
Definition legacyAliases : list (string * string) :=
  [ ("cpu_usage", "cpu"); ("ram_gb", "ram");
    ("storage_health", "storage"); ("battery_health", "battery") ].

(** The health label of a linear component score, read off the raw
    reading: GOOD from [good], FAIR from [fair], POOR below. *)
Definition healthByReading (good fair reading : Q) : health :=
  if Qle_bool good reading then GOOD
  else if Qle_bool fair reading then FAIR else POOR.


(* ================================================================== *)
(** * Properties *)
(* ================================================================== *)

(** ** Comparisons of rationals as booleans *)

Lemma Qle_bool_true (x y : Q) : Qle_bool x y = true <-> (x <= y)%Q.
Proof. apply Qle_bool_iff. Qed.

Lemma Qle_bool_false (x y : Q) : Qle_bool x y = false <-> (y < x)%Q.
Proof.
  split; intros H.
  - apply Qnot_le_lt. intros Hle. apply Qle_bool_iff in Hle. congruence.
  - destruct (Qle_bool x y) eqn:E; [|reflexivity].
    apply Qle_bool_iff in E. exfalso. apply (Qlt_not_le _ _ H E).
Qed.

Lemma Qlt_bool_true (x y : Q) : Qlt_bool x y = true <-> (x < y)%Q.
Proof.
  unfold Qlt_bool. rewrite Bool.negb_true_iff. apply Qle_bool_false.
Qed.

Lemma Qlt_bool_false (x y : Q) : Qlt_bool x y = false <-> (y <= x)%Q.
Proof.
  unfold Qlt_bool. rewrite Bool.negb_false_iff. apply Qle_bool_true.
Qed.

(** Split on every boolean comparison of the goal, keeping the order
    fact each branch stands for. *)
Ltac split_comparisons :=
  repeat match goal with
  | |- context [Qle_bool ?x ?y] =>
      let E := fresh "E" in
      destruct (Qle_bool x y) eqn:E;
      [apply Qle_bool_true in E | apply Qle_bool_false in E]
  end.

(** Split on every condition of a scorer. *)
Ltac split_conditions :=
  repeat match goal with
  | |- context [if ?b then _ else _] => destruct b
  end.

(** Decide the tests on literals ([y === 0] before a division). *)
Ltac literal_tests :=
  repeat match goal with
  | |- context [Qeq_bool ?a ?b] =>
      let v := eval vm_compute in (Qeq_bool a b) in
      match v with
      | true => change (Qeq_bool a b) with true
      | false => change (Qeq_bool a b) with false
      end
  end; cbv iota.

(** Division by a literal, in the form linear arithmetic accepts. *)
Ltac literal_division := unfold Qdiv; cbn [Qinv Qnum Qden].

Lemma ge_spec (x y : Q) : ge (Num x) (Num y) = true <-> (y <= x)%Q.
Proof. apply Qle_bool_true. Qed.

Lemma gt_spec (x y : Q) : gt (Num x) (Num y) = true <-> (y < x)%Q.
Proof. apply Qlt_bool_true. Qed.

Lemma lt_spec (x y : Q) : lt (Num x) (Num y) = true <-> (x < y)%Q.
Proof. apply Qlt_bool_true. Qed.

(** ** [clamp] *)

Lemma clamp_NaN (lo hi : number) : clamp NaN lo hi = NaN.
Proof. destruct lo, hi; reflexivity. Qed.

Lemma clamp_between (v lo hi : Q) :
  (lo <= hi)%Q -> between lo hi (clamp (Num v) (Num lo) (Num hi)).
Proof.
  intros H. unfold clamp, Math_min, Math_max.
  split_comparisons; simpl; split_comparisons; simpl; split; lra.
Qed.

(** Inside its interval [clamp] changes nothing. *)
Lemma clamp_inside (v lo hi : Q) :
  (lo <= v)%Q -> (v <= hi)%Q -> same (clamp (Num v) (Num lo) (Num hi)) (Num v).
Proof.
  intros H1 H2. unfold clamp, Math_min, Math_max.
  split_comparisons; simpl; split_comparisons; simpl; lra.
Qed.

(** ** The tier classifier *)

(** Sorting the table by descending [min] leaves it as written. *)
Lemma sorted_classifications :
  JS.sort (fun a b => sub (min b) (min a)) REUSABILITY_CLASSIFICATION
  = REUSABILITY_CLASSIFICATION.
Proof. reflexivity. Qed.

Lemma classifyReusability_unfold (n : number) :
  classifyReusability n =
  if ge n (Num 85) then HIGH_GRADE_CLASS
  else if ge n (Num 70) then REUSABLE_CLASS
  else if ge n (Num 50) then LIMITED_CLASS
  else NOT_RECOMMENDED_CLASS.
Proof.
  unfold classifyReusability. rewrite sorted_classifications. simpl.
  destruct (ge n (Num 85)); [reflexivity|].
  destruct (ge n (Num 70)); [reflexivity|].
  destruct (ge n (Num 50)); [reflexivity|].
  destruct (ge n (Num 0)); reflexivity.
Qed.

Lemma classifyReusability_tierOf (n : number) :
  classifyReusability n = class_of_tier (tierOf n).
Proof.
  rewrite classifyReusability_unfold. unfold tierOf.
  destruct (ge n (Num 85)); [reflexivity|].
  destruct (ge n (Num 70)); [reflexivity|].
  destruct (ge n (Num 50)); reflexivity.
Qed.

Lemma tierOf_monotone (s1 s2 : Q) :
  (s1 <= s2)%Q -> tier_rank (tierOf (Num s1)) <= tier_rank (tierOf (Num s2)).
Proof.
  intros H. unfold tierOf, ge.
  split_comparisons; simpl; try lia; lra.
Qed.

(** C6. Tier classification is monotone in the total score: for
    [s1 <= s2] the tier tag of [s2] ranks at least as high as the tag of
    [s1] in the order NOT_RECOMMENDED < LIMITED < REUSABLE < HIGH_GRADE,
    and the record returned by [classifyReusability] for [s2] is the one
    of a tier ranked at least as high, with a [min] at least as large. *)
Theorem tier_monotone (s1 s2 : Q) :
  (s1 <= s2)%Q ->
  tier_rank (tierOf (Num s1)) <= tier_rank (tierOf (Num s2))
  /\ (exists t1 t2,
        classifyReusability (Num s1) = class_of_tier t1
        /\ classifyReusability (Num s2) = class_of_tier t2
        /\ tier_rank t1 <= tier_rank t2)
  /\ ge (min (classifyReusability (Num s2))) (min (classifyReusability (Num s1))) = true.
Proof.
  intros H. pose proof (tierOf_monotone s1 s2 H) as Hm.
  split; [exact Hm|]. split.
  - exists (tierOf (Num s1)), (tierOf (Num s2)).
    rewrite !classifyReusability_tierOf. auto.
  - rewrite !classifyReusability_tierOf.
    destruct (tierOf (Num s1)), (tierOf (Num s2)); simpl in Hm; try lia; reflexivity.
Qed.

Lemma tier_monotone_witness :
  (69 <= 70)%Q
  /\ tierOf (Num 69) = LIMITED /\ tierOf (Num 70) = REUSABLE
  /\ tier_rank (tierOf (Num 69)) <= tier_rank (tierOf (Num 70)).
Proof.
  assert (H : (69 <= 70)%Q) by (vm_compute; discriminate).
  split; [exact H|]. split; [reflexivity|]. split; [reflexivity|].
  exact (proj1 (tier_monotone 69 70 H)).
Defined.

(** The tier boundaries of the specification. *)
Example tier_boundaries :
  tierOf (Num 84) = REUSABLE /\ tierOf (Num 85) = HIGH_GRADE
  /\ tierOf (Num 69) = LIMITED /\ tierOf (Num 70) = REUSABLE
  /\ tierOf (Num 49) = NOT_RECOMMENDED /\ tierOf (Num 50) = LIMITED
  /\ tierOf NaN = NOT_RECOMMENDED.
Proof. repeat split; reflexivity. Qed.

(** C10. The two classification views of a standardized result agree:
    for every total score, [NaN] included, the record found by the
    descending scan of [classifyReusability] is the entry stored under
    the tier tag of the inline threshold chain; so in every result
    [minScore] is 85, 70, 50 or 0 exactly when [tier] is HIGH_GRADE,
    REUSABLE, LIMITED or NOT_RECOMMENDED, and [level] and [description]
    are the label and description of that same entry. *)
Theorem classification_views_agree :
  (forall n : number, classifyReusability n = class_of_tier (tierOf n))
  /\ (forall (StringToNumber : string -> number) (input : gmap string value),
        let c := result_classification (evaluateDeviceStandardized StringToNumber input) in
        level c = label (class_of_tier (view_tier c))
        /\ view_description c = description (class_of_tier (view_tier c))
        /\ minScore c = min (class_of_tier (view_tier c))
        /\ (minScore c = Num 85 <-> view_tier c = HIGH_GRADE)
        /\ (minScore c = Num 70 <-> view_tier c = REUSABLE)
        /\ (minScore c = Num 50 <-> view_tier c = LIMITED)
        /\ (minScore c = Num 0 <-> view_tier c = NOT_RECOMMENDED)).
Proof.
  split; [exact classifyReusability_tierOf|].
  intros S2N input. cbv zeta.
  unfold evaluateDeviceStandardized. cbn [result_classification level view_description
    minScore view_tier].
  rewrite classifyReusability_tierOf.
  repeat split; try (intros E; destruct (tierOf _); simpl in *; congruence).
Qed.

(** ** Performance retention *)

(** The lookup on a finite percentage, band by band. *)
Lemma performance_lookup (p : Q) :
  scoreLookup (Num p) PERFORMANCE_SCORING =
  if Qle_bool 95 p then Num 30
  else if Qle_bool 90 p then Num 25
  else if Qle_bool 85 p then Num 20
  else if Qle_bool 80 p then Num 15
  else if Qle_bool 0 p then Num 5 else Num 0.
Proof. reflexivity. Qed.

(** C7. The performance-retention scorer tells the no-data sentinel from
    a poor benchmark: a percentage equal to 0 scores 0 (status NO_DATA),
    every percentage strictly between 0 and 80 scores 5 (status
    EVALUATED), so the scores at 0 and at 1 differ. *)
Theorem performance_zero_is_not_poor (diag : NormalizedDiagnostic) (p : Q) :
  performance_percentage diag = Num p ->
  ((p == 0)%Q ->
     performance_score (scorePerformanceRetention diag) = Num 0
     /\ benchmarkStatus (performance_details (scorePerformanceRetention diag)) = NO_DATA)
  /\ ((0 < p)%Q -> (p < 80)%Q ->
     performance_score (scorePerformanceRetention diag) = Num 5
     /\ benchmarkStatus (performance_details (scorePerformanceRetention diag)) = EVALUATED)
  /\ performance_score (scorePerformanceRetention (withPerformance (Num 0) diag))
     <> performance_score (scorePerformanceRetention (withPerformance (Num 1) diag)).
Proof.
  intros Hp. unfold scorePerformanceRetention.
  cbn [performance_score performance_details benchmarkStatus]. rewrite Hp.
  split; [|split].
  - intros H0. assert (E : gt (Num p) (Num 0) = false).
    { apply Qlt_bool_false. lra. }
    rewrite E. split; reflexivity.
  - intros H0 H80. assert (E : gt (Num p) (Num 0) = true).
    { apply Qlt_bool_true. exact H0. }
    rewrite E, performance_lookup.
    split_comparisons; try lra. split; reflexivity.
  - vm_compute. discriminate.
Qed.

Lemma performance_zero_is_not_poor_witness :
  performance_score (scorePerformanceRetention (withPerformance (Num 1) defaults)) = Num 5
  /\ performance_score (scorePerformanceRetention (withPerformance (Num 0) defaults)) = Num 0.
Proof.
  split.
  - refine (proj1 (proj1 (proj2
      (performance_zero_is_not_poor (withPerformance (Num 1) defaults) 1 eq_refl)) _ _)).
    + vm_compute. reflexivity.
    + vm_compute. reflexivity.
  - refine (proj1 (proj1
      (performance_zero_is_not_poor (withPerformance (Num 0) defaults) 0 eq_refl) _)).
    reflexivity.
Defined.

(** The remaining bands of the table, for finite percentages. *)
Lemma performance_bands (diag : NormalizedDiagnostic) (p : Q) :
  performance_percentage diag = Num p -> (80 <= p)%Q -> (p <= 100)%Q ->
  performance_score (scorePerformanceRetention diag) =
  if Qle_bool 95 p then Num 30
  else if Qle_bool 90 p then Num 25
  else if Qle_bool 85 p then Num 20 else Num 15.
Proof.
  intros Hp H80 H100. unfold scorePerformanceRetention.
  cbn [performance_score]. rewrite Hp.
  assert (E : gt (Num p) (Num 0) = true) by (apply Qlt_bool_true; lra).
  rewrite E, performance_lookup.
  split_comparisons; try lra; reflexivity.
Qed.

(** ** Physical and thermal condition *)

(** C8. The critical thermal check comes first and short-circuits the
    concerning check: when the idle temperature exceeds 60 or the load
    temperature exceeds 95, the status is CRITICAL and the score is
    10 minus the damage and port deductions minus exactly 4, clamped to
    [0, 10]; the concerning penalty of 2 is not added. *)
Theorem critical_thermal_short_circuits (diag : NormalizedDiagnostic) :
  (exists i, idle_temperature_celsius diag = Num i /\ (60 < i)%Q)
  \/ (exists l, load_temperature_celsius diag = Num l /\ (95 < l)%Q) ->
  thermalStatus (physical_details (scorePhysicalThermal diag)) = CRITICAL
  /\ physical_score (scorePhysicalThermal diag) =
     clamp (Num (10 - physicalDeductions diag - 4)) (Num 0) (Num 10).
Proof.
  intros Hcrit. unfold scorePhysicalThermal, physicalDeductions.
  cbn [THERMAL_LIMITS critical normal idle load].
  assert (E : gt (idle_temperature_celsius diag) (Num 60)
              || gt (load_temperature_celsius diag) (Num 95) = true).
  { apply Bool.orb_true_iff.
    destruct Hcrit as [(i & -> & H)|(l & -> & H)]; [left|right];
      apply Qlt_bool_true; exact H. }
  rewrite E. cbn [physical_score physical_details thermalStatus].
  split; [reflexivity|].
  destruct (physical_damage diag), (port_integrity diag); reflexivity.
Qed.

(** Idle 65 and load 98 on an undamaged device with intact ports: 4
    points are taken off, the score is 6 (and not 4). *)
Lemma critical_thermal_short_circuits_witness :
  thermalStatus (physical_details
    (scorePhysicalThermal (withTemperatures (Num 65) (Num 98) defaults))) = CRITICAL
  /\ physical_score (scorePhysicalThermal (withTemperatures (Num 65) (Num 98) defaults))
     = Num 6.
Proof.
  refine (critical_thermal_short_circuits
            (withTemperatures (Num 65) (Num 98) defaults) _).
  left. exists 65%Q. split; [reflexivity|]. vm_compute. reflexivity.
Defined.

(** The concerning band, for comparison: 2 points are taken off. *)
Lemma concerning_thermal (diag : NormalizedDiagnostic) (i l : Q) :
  idle_temperature_celsius diag = Num i ->
  load_temperature_celsius diag = Num l ->
  (i <= 60)%Q -> (l <= 95)%Q -> (50 < i)%Q \/ (85 < l)%Q ->
  thermalStatus (physical_details (scorePhysicalThermal diag)) = CONCERNING
  /\ physical_score (scorePhysicalThermal diag) =
     clamp (Num (10 - physicalDeductions diag - 2)) (Num 0) (Num 10).
Proof.
  intros Hi Hl Hi60 Hl95 Hwarm. unfold scorePhysicalThermal, physicalDeductions.
  rewrite Hi, Hl. cbn [THERMAL_LIMITS critical normal idle load].
  assert (E1 : gt (Num i) (Num 60) || gt (Num l) (Num 95) = false).
  { apply Bool.orb_false_iff. split; apply Qlt_bool_false; assumption. }
  assert (E2 : gt (Num i) (Num 50) || gt (Num l) (Num 85) = true).
  { apply Bool.orb_true_iff. destruct Hwarm as [H|H]; [left|right];
      apply Qlt_bool_true; exact H. }
  rewrite E1, E2. cbn [physical_score physical_details thermalStatus].
  split; [reflexivity|].
  destruct (physical_damage diag), (port_integrity diag); reflexivity.
Qed.

(** The third scenario of the test suite: damage, a broken port and
    critical temperatures take off 4 + 2 + 4 and leave 0. *)
Example scenario_not_recommended_physical :
  let r := scorePhysicalThermal (normalizeInput noNumericStrings standardizedNotRecommended) in
  physical_score r = Num 0 /\ thermalStatus (physical_details r) = CRITICAL.
Proof. vm_compute. split; reflexivity. Qed.

(** ** Remaining life *)

(** What the code computes for the SSD: [SSD_WEAR_SCORING] is keyed by
    wear in ascending order (20, 40, 60, 100) but is scanned with [>=]
    on [100 - wear], so its first row answers for every wear up to 80
    and no row answers above. *)
Lemma ssd_score_code (diag : NormalizedDiagnostic) (w : Q) :
  ssd_wear_percentage diag = Num w ->
  ssd_score (rd_ssd (remaining_details (scoreRemainingLife diag))) =
  if Qle_bool w 80 then Num 10 else Num 0.
Proof.
  intros Hw. unfold scoreRemainingLife.
  cbn [remaining_details rd_ssd ssd_score]. rewrite Hw.
  cbn [sub SSD_WEAR_SCORING scoreLookup threshold score ge].
  split_comparisons; try reflexivity; lra.
Qed.

(** C1 (the code departs from the claim). For every normalised
    diagnostic whose SSD wear lies above 20 and up to 80, the code's SSD
    sub-score is 10, where the descending lookup on [100 - wear] of the
    specification gives 7, 4 or 0; in particular a wear of 50% yields 10
    and not 4. *)
Theorem ssd_score_ignores_wear_bands (diag : NormalizedDiagnostic) (w : Q) :
  ssd_wear_percentage diag = Num w -> (20 < w)%Q -> (w <= 80)%Q ->
  ssd_score (rd_ssd (remaining_details (scoreRemainingLife diag))) = Num 10
  /\ ssdScore_spec (Num w) <> Num 10
  /\ ((40 < w)%Q -> (w <= 60)%Q -> ssdScore_spec (Num w) = Num 4).
Proof.
  intros Hw H20 H80. rewrite (ssd_score_code diag w Hw).
  assert (E : Qle_bool w 80 = true) by (apply Qle_bool_true; exact H80).
  rewrite E. split; [reflexivity|].
  unfold ssdScore_spec.
  cbn [sub SSD_REMAINING_LIFE_SCORING_spec scoreLookup threshold score ge].
  split.
  - split_comparisons; try discriminate. lra.
  - intros H40 H60. split_comparisons; try reflexivity; lra.
Qed.

Lemma ssd_score_ignores_wear_bands_witness :
  ssd_score (rd_ssd (remaining_details
    (scoreRemainingLife (withWear (Num 50) (Num 0) defaults)))) = Num 10
  /\ ssdScore_spec (Num 50) = Num 4.
Proof.
  assert (H20 : (20 < 50)%Q) by reflexivity.
  assert (H40 : (40 < 50)%Q) by reflexivity.
  assert (H60 : (50 <= 60)%Q) by (vm_compute; discriminate).
  assert (H80 : (50 <= 80)%Q) by (vm_compute; discriminate).
  pose proof (ssd_score_ignores_wear_bands
                (withWear (Num 50) (Num 0) defaults) 50 eq_refl H20 H80) as (Hc & _ & Hs).
  split; [exact Hc | exact (Hs H40 H60)].
Defined.

(** Up to a wear of 20, and above 80, the two lookups agree. *)
Lemma ssd_score_agrees (diag : NormalizedDiagnostic) (w : Q) :
  ssd_wear_percentage diag = Num w -> (w <= 20)%Q \/ (80 < w)%Q ->
  ssd_score (rd_ssd (remaining_details (scoreRemainingLife diag))) = ssdScore_spec (Num w).
Proof.
  intros Hw Hband. rewrite (ssd_score_code diag w Hw).
  unfold ssdScore_spec.
  cbn [sub SSD_REMAINING_LIFE_SCORING_spec scoreLookup threshold score ge].
  split_comparisons; try reflexivity; destruct Hband; lra.
Qed.

(** The battery sub-score is the descending lookup of the specification. *)
Lemma battery_score_code (diag : NormalizedDiagnostic) (b : Q) :
  battery_health_percent diag = Num b ->
  battery_score (rd_battery (remaining_details (scoreRemainingLife diag))) =
  if Qle_bool 85 b then Num 10
  else if Qle_bool 70 b then Num 7
  else if Qle_bool 60 b then Num 4
  else Num 0.
Proof.
  intros Hb. unfold scoreRemainingLife.
  cbn [remaining_details rd_battery battery_score]. rewrite Hb.
  cbn [BATTERY_HEALTH_SCORING scoreLookup threshold score ge].
  split_comparisons; try reflexivity.
Qed.

(** The category score is the clamped sum of the two sub-scores. *)
Lemma remaining_score_code (diag : NormalizedDiagnostic) :
  let r := scoreRemainingLife diag in
  remaining_score r =
  clamp (add (ssd_score (rd_ssd (remaining_details r)))
             (battery_score (rd_battery (remaining_details r))))
        (Num 0) (Num 20).
Proof. reflexivity. Qed.

(** The code against the specification at four wear levels: they differ
    at 50% and at 35%, they agree at 15% and at 85%. *)
Example ssd_wear_levels :
  ssd_score (rd_ssd (remaining_details
    (scoreRemainingLife (withWear (Num 50) (Num 0) defaults)))) = Num 10
  /\ ssdScore_spec (Num 50) = Num 4
  /\ ssd_score (rd_ssd (remaining_details
       (scoreRemainingLife (withWear (Num 35) (Num 0) defaults)))) = Num 10
  /\ ssdScore_spec (Num 35) = Num 7
  /\ ssd_score (rd_ssd (remaining_details
       (scoreRemainingLife (withWear (Num 15) (Num 0) defaults)))) = ssdScore_spec (Num 15)
  /\ ssd_score (rd_ssd (remaining_details
       (scoreRemainingLife (withWear (Num 85) (Num 0) defaults)))) = ssdScore_spec (Num 85).
Proof. repeat split; reflexivity. Qed.

(** ** Longevity *)

Lemma mul_NaN_r (a : number) : mul a NaN = NaN.
Proof. destruct a; reflexivity. Qed.

Lemma penalty_of_label (h : health) (fallback : number) :
  penalty_ToNumber (penalty_or (LONGEVITY_PENALTIES h) fallback) =
  match h with GOOD => Num 1 | FAIR | POOR => NaN | UNKNOWN => fallback end.
Proof. destruct h; reflexivity. Qed.

(** The code reads [LONGEVITY_PENALTIES[label]] without selecting the
    component: under FAIR and POOR this is an object, and an object in a
    product is [NaN]. One component that is FAIR or POOR makes the whole
    estimate [NaN]. *)
Lemma estimateLongevityYears_NaN (totalScore : number)
    (components : per_component component_summary) :
  (exists c, In c (values components) /\ (comp_health c = FAIR \/ comp_health c = POOR)) ->
  estimateLongevityYears totalScore components = NaN.
Proof.
  intros (c & Hin & Hc). unfold estimateLongevityYears.
  cbn [fold_left]. rewrite !penalty_of_label.
  assert (E : mul (mul (mul (mul (Num 1)
      match comp_health (battery components) with
      | GOOD => Num 1 | FAIR | POOR => NaN | UNKNOWN => battery LONGEVITY_PENALTIES_POOR end)
      match comp_health (cpu components) with
      | GOOD => Num 1 | FAIR | POOR => NaN | UNKNOWN => cpu LONGEVITY_PENALTIES_POOR end)
      match comp_health (storage components) with
      | GOOD => Num 1 | FAIR | POOR => NaN | UNKNOWN => storage LONGEVITY_PENALTIES_POOR end)
      match comp_health (ram components) with
      | GOOD => Num 1 | FAIR | POOR => NaN | UNKNOWN => ram LONGEVITY_PENALTIES_POOR end
      = NaN).
  { unfold values in Hin. simpl in Hin.
    destruct Hin as [<-|[<-|[<-|[<-|[]]]]]; destruct Hc as [-> | ->];
      destruct (comp_health (battery components)), (comp_health (cpu components)),
               (comp_health (storage components)), (comp_health (ram components));
      try reflexivity; try discriminate. }
  rewrite E, mul_NaN_r. reflexivity.
Qed.

(** [Math.round] keeps a number between two integers between them. *)
Lemma Math_round_between (x : Q) (a b : Z) :
  (inject_Z a <= x)%Q -> (x <= inject_Z b)%Q ->
  (a <= Qfloor (x + (1 # 2)) <= b)%Z.
Proof.
  intros Ha Hb. split.
  - rewrite <- (Qfloor_Z a). apply Qfloor_resp_le. lra.
  - apply Z.lt_succ_r, Z.nle_gt. intros Hge.
    pose proof (Qfloor_le (x + (1 # 2))) as Hf.
    assert (Hq : (inject_Z (Z.succ b) <= inject_Z (Qfloor (x + (1 # 2))))%Q)
      by (rewrite <- Zle_Qle; exact Hge).
    unfold Z.succ in Hq. rewrite inject_Z_plus in Hq.
    change (inject_Z 1) with 1%Q in Hq. lra.
Qed.

(** With four GOOD components the estimate is a number between 0 and 6. *)
Lemma estimateLongevityYears_all_good (t : Q)
    (components : per_component component_summary) :
  (forall c, In c (values components) -> comp_health c = GOOD) ->
  between 0 6 (estimateLongevityYears (Num t) components).
Proof.
  intros Hgood. unfold estimateLongevityYears. cbn [fold_left].
  rewrite !penalty_of_label.
  rewrite (Hgood (battery components)), (Hgood (cpu components)),
          (Hgood (storage components)), (Hgood (ram components))
    by (unfold values; simpl; auto).
  pose proof (clamp_between t 0 100) as Hc.
  destruct (clamp (Num t) (Num 0) (Num 100)) as [|c]; [destruct Hc; lra|].
  simpl in Hc. specialize (Hc ltac:(lra)).
  unfold div at 2. literal_tests. cbn [mul Math_max].
  set (y := ((c / 100 * 6 * (1 * 1 * 1 * 1 * 1)))%Q).
  assert (Hy : (0 <= y <= 6)%Q) by (unfold y; literal_division; lra).
  destruct (Qle_bool 0 y) eqn:E.
  2:{ apply Qle_bool_false in E. lra. }
  cbn [mul Math_round div]. literal_tests. cbn [between].
  destruct (Math_round_between (y * 10) 0 60) as [H0 H60].
  { change (inject_Z 0) with 0%Q. lra. }
  { change (inject_Z 60) with 60%Q. lra. }
  rewrite Zle_Qle in H0, H60.
  change (inject_Z 0) with 0%Q in H0. change (inject_Z 60) with 60%Q in H60.
  literal_division. lra.
Qed.




(** At a total of 70 with a FAIR cpu the previous revision answers 4.2:
    it has no FAIR penalty for the cpu. *)
Example earlier_estimate_fair_cpu :
  same (EarlierRevision.estimateLongevityYears (Num 70)
          {| cpu := {| comp_score := Num 19.5; comp_health := FAIR |};
             ram := {| comp_score := Num 25; comp_health := GOOD |};
             storage := {| comp_score := Num 25; comp_health := GOOD |};
             battery := {| comp_score := Num 20; comp_health := GOOD |} |})
       (Num 4.2).
Proof. vm_compute. reflexivity. Qed.

(** C2 (evaluation of the code where it departs from the claim). The
    legacy payload of the test suite has a FAIR cpu (65%), so whatever
    [Math.pow] returns for the battery curve the longevity estimate of
    the report is [NaN], not a finite number. At the function itself:
    for a total of 70 with a FAIR cpu and the other components GOOD the
    specification's formula gives 4.2 x 0.85 rounded to 3.6, the code
    gives [NaN]. *)
Theorem longevity_is_NaN_with_a_fair_component :
  (forall Math_pow : Q -> Q -> Q,
     let report := evaluateDevice Math_pow (Num 65) (Num 8) (Num 75) (Num 80) in
     comp_health (cpu (report_components report)) = FAIR
     /\ yearsRemaining (report_longevity report) = NaN)
  /\ (let components :=
        {| cpu := {| comp_score := Num 19.5; comp_health := FAIR |};
           ram := {| comp_score := Num 25; comp_health := GOOD |};
           storage := {| comp_score := Num 25; comp_health := GOOD |};
           battery := {| comp_score := Num 20; comp_health := GOOD |} |} in
      estimateLongevityYears (Num 70) components = NaN
      /\ same (estimateLongevityYears_spec (Num 70) components) (Num 3.6)).
Proof.
  split.
  - intros pow report.
    assert (Hcpu : comp_health (cpu (report_components report)) = FAIR) by reflexivity.
    split; [exact Hcpu|].
    unfold report, evaluateDevice. cbn [report_longevity yearsRemaining].
    apply estimateLongevityYears_NaN.
    eexists. split; [left; reflexivity|]. left. reflexivity.
  - cbv zeta. split; [reflexivity|]. vm_compute. reflexivity.
Qed.

(** ** Range of the total score *)

Lemma add_between (a b c d : Q) (x y : number) :
  between a b x -> between c d y -> between (a + c) (b + d) (add x y).
Proof.
  destruct x as [|x], y as [|y]; simpl; try tauto. intros [? ?] [? ?]. split; lra.
Qed.

Lemma functional_score_between (diag : NormalizedDiagnostic) :
  between 0 40 (functional_score (scoreFunctionalIntegrity diag)).
Proof.
  unfold scoreFunctionalIntegrity. cbn [functional_score].
  split_conditions; vm_compute; split; discriminate.
Qed.

Lemma scoreLookup_performance_between (n : number) :
  between 0 30 (clamp (if gt n (Num 0) then scoreLookup n PERFORMANCE_SCORING else Num 0)
                      (Num 0) (Num 30)).
Proof.
  destruct n as [|p]; [vm_compute; split; discriminate|].
  rewrite performance_lookup.
  split_conditions; vm_compute; split; discriminate.
Qed.

Lemma performance_score_between (diag : NormalizedDiagnostic) :
  between 0 30 (performance_score (scorePerformanceRetention diag)).
Proof. apply scoreLookup_performance_between. Qed.

Lemma remaining_score_between (diag : NormalizedDiagnostic) :
  between 0 20 (remaining_score (scoreRemainingLife diag)).
Proof.
  unfold scoreRemainingLife. cbn [remaining_score].
  destruct (ssd_wear_percentage diag) as [|w], (battery_health_percent diag) as [|b];
    cbn [sub scoreLookup SSD_WEAR_SCORING BATTERY_HEALTH_SCORING threshold score ge];
    split_conditions; vm_compute; split; discriminate.
Qed.

Lemma physical_score_between (diag : NormalizedDiagnostic) :
  between 0 10 (physical_score (scorePhysicalThermal diag)).
Proof.
  unfold scorePhysicalThermal.
  destruct (physical_damage diag), (port_integrity diag);
    split_conditions; vm_compute; split; discriminate.
Qed.

Lemma standardized_total_between (StringToNumber : string -> number)
    (input : gmap string value) :
  between 0 100 (totalScore (evaluateDeviceStandardized StringToNumber input)).
Proof.
  unfold evaluateDeviceStandardized. cbn [totalScore].
  set (diag := normalizeInput StringToNumber input).
  pose proof (add_between _ _ _ _ _ _
    (add_between _ _ _ _ _ _
      (add_between _ _ _ _ _ _ (functional_score_between diag)
                               (performance_score_between diag))
      (remaining_score_between diag))
    (physical_score_between diag)) as H.
  destruct (add _ _) as [|q]; simpl in *; [exact H|]. lra.
Qed.

(** Each legacy component score lies between 0 and its maximum. *)
Lemma scoreCPU_between (c : Q) : between 0 30 (scoreCPU (Num c)).
Proof.
  unfold scoreCPU. cbn [MAX_SCORES cpu div mul]. literal_tests.
  apply clamp_between. lra.
Qed.

Lemma scoreStorage_between (s : Q) : between 0 25 (scoreStorage (Num s)).
Proof.
  unfold scoreStorage. cbn [MAX_SCORES storage div mul]. literal_tests.
  apply clamp_between. lra.
Qed.

Lemma scoreRAM_between (r : Q) : between 0 25 (scoreRAM (Num r)).
Proof.
  unfold scoreRAM. cbn [MAX_SCORES ram Math_min].
  destruct (Qle_bool r 32); cbn [div mul]; literal_tests; apply clamp_between; lra.
Qed.

Lemma scoreBattery_between (Math_pow : Q -> Q -> Q) (b : Q) :
  (forall x, (0 <= x)%Q -> (x <= 1)%Q ->
             (0 <= Math_pow x 1.8)%Q /\ (Math_pow x 1.8 <= 1)%Q) ->
  between 0 20 (scoreBattery Math_pow (Num b)).
Proof.
  intros Hpow. unfold scoreBattery. cbn [MAX_SCORES battery div]. literal_tests.
  pose proof (clamp_between (b / 100) 0 1 ltac:(lra)) as Hn.
  destruct (clamp (Num (b / 100)) (Num 0) (Num 1)) as [|n]; [destruct Hn|].
  simpl in Hn. destruct (Hpow n) as [H0 H1]; try tauto.
  simpl. split; lra.
Qed.

Lemma weightedTotal_between (c r s b : number) :
  between 0 30 c -> between 0 25 r -> between 0 25 s -> between 0 20 b ->
  between 0 100
    (weightedTotal {| cpu := c; ram := r; storage := s; battery := b |}).
Proof.
  destruct c as [|c], r as [|r], s as [|s], b as [|b]; simpl; try tauto.
  intros Hc Hr Hs Hb. unfold weightedTotal. cbn [cpu ram storage battery MAX_SCORES WEIGHTS].
  cbn [div]. literal_tests. cbn [mul add between].
  literal_division. split; lra.
Qed.

(** C3. The total score of either pipeline lies between 0 and 100: the
    standardized total for every payload, and the rounded legacy total
    for every four finite component readings. ([Math.pow] enters through
    the battery curve; it maps [0, 1] into [0, 1].) *)
Theorem total_score_in_range (StringToNumber : string -> number)
    (Math_pow : Q -> Q -> Q) :
  (forall x, (0 <= x)%Q -> (x <= 1)%Q ->
             (0 <= Math_pow x 1.8)%Q /\ (Math_pow x 1.8 <= 1)%Q) ->
  (forall input : gmap string value,
     between 0 100 (totalScore (evaluateDeviceStandardized StringToNumber input)))
  /\ (forall cpu' ram' storage' battery' : Q,
        between 0 100
          (report_totalScore
             (evaluateDevice Math_pow (Num cpu') (Num ram') (Num storage') (Num battery')))).
Proof.
  intros Hpow. split; [apply standardized_total_between|].
  intros c r s b. unfold evaluateDevice. cbn [report_totalScore].
  pose proof (weightedTotal_between _ _ _ _ (scoreCPU_between c) (scoreRAM_between r)
                (scoreStorage_between s) (scoreBattery_between Math_pow b Hpow)) as H.
  destruct (weightedTotal _) as [|t]; [destruct H|].
  simpl in H. cbn [Math_round between].
  destruct (Math_round_between t 0 100) as [H0 H100].
  { change (inject_Z 0) with 0%Q. lra. }
  { change (inject_Z 100) with 100%Q. lra. }
  rewrite Zle_Qle in H0, H100. split; assumption.
Qed.

Lemma squareCurve_unit (x : Q) :
  (0 <= x)%Q -> (x <= 1)%Q -> (0 <= squareCurve x 1.8)%Q /\ (squareCurve x 1.8 <= 1)%Q.
Proof. intros H0 H1. unfold squareCurve. split; nra. Qed.

Lemma total_score_in_range_witness :
  between 0 100
    (totalScore (evaluateDeviceStandardized noNumericStrings standardizedHighGrade))
  /\ between 0 100
       (report_totalScore (evaluateDevice squareCurve (Num 65) (Num 8) (Num 75) (Num 80))).
Proof.
  split.
  - exact (proj1 (total_score_in_range noNumericStrings squareCurve squareCurve_unit)
                 standardizedHighGrade).
  - exact (proj2 (total_score_in_range noNumericStrings squareCurve squareCurve_unit)
                 65%Q 8%Q 75%Q 80%Q).
Defined.

(** The totals of the three standardized payloads of the test suite. *)
Example scenario_totals :
  totalScore (evaluateDeviceStandardized noNumericStrings standardizedHighGrade) = Num 100
  /\ totalScore (evaluateDeviceStandardized noNumericStrings standardizedLimited) = Num 54
  /\ totalScore (evaluateDeviceStandardized noNumericStrings standardizedNotRecommended)
     = Num 16.
Proof. vm_compute. repeat split; reflexivity. Qed.

(** ** Boolean fields of the normalised record *)

(** [physical_damage] and [port_integrity] are compared with [true] and
    [false]: only the boolean [true] flags damage, only the boolean
    [false] flags a broken port. *)
Lemma physical_flags_coerced (StringToNumber : string -> number)
    (input : gmap string value) :
  (physical_damage (normalizeInput StringToNumber input) = true
     <-> get input "physical_damage" = VBool true)
  /\ (port_integrity (normalizeInput StringToNumber input) = false
     <-> get input "port_integrity" = VBool false).
Proof.
  cbn [normalizeInput physical_damage port_integrity]. split.
  - destruct (get input "physical_damage") as [| |[]| |]; simpl; split; congruence.
  - rewrite Bool.negb_false_iff.
    destruct (get input "port_integrity") as [| |[]| |]; simpl; split; congruence.
Qed.

(** The four stress flags pass through [??]: whatever is not [null] or
    [undefined] is kept as it is. *)
Lemma stress_flags_pass_through (StringToNumber : string -> number)
    (input : gmap string value) :
  cpu_stress_stable (normalizeInput StringToNumber input)
    = coalesce (get input "cpu_stress_stable") (VBool false)
  /\ cpu_throttling (normalizeInput StringToNumber input)
    = coalesce (get input "cpu_throttling") (VBool false)
  /\ gpu_stress_stable (normalizeInput StringToNumber input)
    = coalesce (get input "gpu_stress_stable") (VBool false)
  /\ gpu_artifacts (normalizeInput StringToNumber input)
    = coalesce (get input "gpu_artifacts") (VBool false).
Proof. repeat split; reflexivity. Qed.

(** C9 (evaluation of the code where it departs from the claim). The
    throttling flag ["yes"] is not coerced: the normalised field is the
    string, the cpu sub-score takes the truthy branch and gives 6 where
    [false] gives 0, so the functional scores are 16 and 10. The
    stability flag ["yes"] is not coerced either: it scores like
    [false], but the "CPU FAILED" recommendation, which tests its
    truthiness, is issued for [false] and not for ["yes"]. *)
Theorem truthy_flag_is_not_false (StringToNumber : string -> number) :
  let yes := evaluateDeviceStandardized StringToNumber throttlingYes in
  let no := evaluateDeviceStandardized StringToNumber throttlingFalse in
  cpu_throttling (normalizeInput StringToNumber throttlingYes) = VString "yes"
  /\ is_boolean (cpu_throttling (normalizeInput StringToNumber throttlingYes)) = false
  /\ category_score (functionalIntegrity (categories yes)) = Num 16
  /\ category_score (functionalIntegrity (categories no)) = Num 10
  /\ totalScore yes = Num 36 /\ totalScore no = Num 30
  /\ map action (recommendedActions (evaluateDeviceStandardized StringToNumber stableYes))
     = ["DO NOT REUSE"; "REPLACE STORAGE"; "REPLACE BATTERY"]
  /\ map action (recommendedActions (evaluateDeviceStandardized StringToNumber stableFalse))
     = ["DO NOT REUSE"; "REPLACE STORAGE"; "CPU FAILED"; "REPLACE BATTERY"].
Proof. vm_compute. repeat split; reflexivity. Qed.

(** ** The dispatcher *)

Lemma some_pure (f : string -> bool) (keys : list string) :
  Service.some (fun key => inr (f key)) keys = inr (existsb f keys).
Proof.
  induction keys as [|key rest IH]; [reflexivity|].
  simpl. destruct (f key); [reflexivity|exact IH].
Qed.

Lemma some_throws (e : Service.exn) (keys : list string) :
  keys <> [] -> Service.some (fun _ => inl e) keys = inl e.
Proof. destruct keys; [congruence|reflexivity]. Qed.

(** Schema detection on an object: key presence, unless the object
    shadows [hasOwnProperty]. *)
Lemma isStandardizedInput_object (props : gmap string value) :
  Service.isStandardizedInput (Service.Object props) =
  match props !! "hasOwnProperty" with
  | Some _ => inl (Service.not_a_function "input.hasOwnProperty")
  | None => inr (ownsStandardizedKey props)
  end.
Proof.
  unfold Service.isStandardizedInput, Service.hasOwnProperty, ownsStandardizedKey.
  destruct (props !! "hasOwnProperty").
  - apply some_throws. discriminate.
  - apply some_pure.
Qed.

Lemma same_keys_same_presence (p1 p2 : gmap string value) (key : string) :
  dom p1 = dom p2 ->
  bool_decide (is_Some (p1 !! key)) = bool_decide (is_Some (p2 !! key)).
Proof.
  intros Hdom. apply bool_decide_ext. rewrite <- !elem_of_dom, Hdom. reflexivity.
Qed.

Lemma same_keys_same_ownership (p1 p2 : gmap string value) :
  dom p1 = dom p2 -> ownsStandardizedKey p1 = ownsStandardizedKey p2.
Proof.
  intros Hdom. unfold ownsStandardizedKey.
  induction Service.standardizedKeys as [|key rest IH]; [reflexivity|].
  simpl. rewrite IH, (same_keys_same_presence p1 p2 key Hdom). reflexivity.
Qed.

(** Detection looks at the key set only: two objects with the same keys
    get the same answer, whatever the values. *)
Lemma detection_by_keys (p1 p2 : gmap string value) :
  dom p1 = dom p2 ->
  Service.isStandardizedInput (Service.Object p1)
  = Service.isStandardizedInput (Service.Object p2).
Proof.
  intros Hdom. rewrite !isStandardizedInput_object.
  rewrite (same_keys_same_ownership p1 p2 Hdom).
  pose proof (same_keys_same_presence p1 p2 "hasOwnProperty" Hdom) as H.
  destruct (p1 !! "hasOwnProperty"), (p2 !! "hasOwnProperty"); try reflexivity.
  - rewrite bool_decide_eq_true_2 in H by eauto.
    symmetry in H. apply bool_decide_eq_true_1 in H. destruct H; discriminate.
  - rewrite (bool_decide_eq_true_2 (is_Some (Some v))) in H by eauto.
    apply bool_decide_eq_true_1 in H. destruct H; discriminate.
Qed.

Section Routing.
Variable StringToNumber : string -> number.
Variable Math_pow : Q -> Q -> Q.

Abbreviation run := (Service.evaluateDevice StringToNumber Math_pow).

Lemma legacyField_object (props : gmap string value) (a b : string) :
  exists n, Service.legacyField StringToNumber (Service.Object props) a b = inr n.
Proof.
  unfold Service.legacyField, Service.read, Service.bind.
  destruct (get props a); eauto.
Qed.

(** An object that owns a standardized key, and no key named
    [hasOwnProperty], goes through the standardized pipeline. *)
Lemma routed_standardized (props : gmap string value) :
  props !! "hasOwnProperty" = None ->
  ownsStandardizedKey props = true ->
  Service.evaluationModel (run (Service.Object props)) = "STANDARDIZED_HARDWARE_REUSABILITY"
  /\ Service.standardized (run (Service.Object props))
     = Some (evaluateDeviceStandardized StringToNumber props).
Proof.
  intros Hshadow Hown.
  unfold Service.evaluateDevice, Service.dispatch, Service.try_block.
  rewrite isStandardizedInput_object, Hshadow, Hown. split; reflexivity.
Qed.

(** An object that owns none of them, and no key named
    [hasOwnProperty], goes through the legacy pipeline. *)
Lemma routed_legacy (props : gmap string value) :
  props !! "hasOwnProperty" = None ->
  ownsStandardizedKey props = false ->
  Service.evaluationModel (run (Service.Object props)) = "LEGACY_COMPONENT_HEALTH"
  /\ Service.standardized (run (Service.Object props)) = None.
Proof.
  intros Hshadow Hown.
  unfold Service.evaluateDevice, Service.dispatch, Service.try_block.
  rewrite isStandardizedInput_object, Hshadow, Hown. cbn [Service.bind].
  destruct (legacyField_object props "cpu_usage" "cpu") as [c ->].
  destruct (legacyField_object props "ram_gb" "ram") as [r ->].
  destruct (legacyField_object props "storage_health" "storage") as [s ->].
  destruct (legacyField_object props "battery_health" "battery") as [b ->].
  split; reflexivity.
Qed.

(** An object that owns a key named [hasOwnProperty] is answered by the
    error envelope. *)
Lemma routed_error (props : gmap string value) (v : value) :
  props !! "hasOwnProperty" = Some v ->
  run (Service.Object props)
  = Service.errorEnvelope (Service.not_a_function "input.hasOwnProperty").
Proof.
  intros Hshadow.
  unfold Service.evaluateDevice, Service.dispatch, Service.try_block.
  rewrite isStandardizedInput_object, Hshadow. reflexivity.
Qed.

(** The model tag of the envelope is a function of the key set. *)
Lemma model_by_keys (p1 p2 : gmap string value) :
  dom p1 = dom p2 ->
  Service.evaluationModel (run (Service.Object p1))
  = Service.evaluationModel (run (Service.Object p2)).
Proof.
  intros Hdom.
  pose proof (detection_by_keys p1 p2 Hdom) as Hdet.
  rewrite !isStandardizedInput_object in Hdet.
  destruct (p1 !! "hasOwnProperty") eqn:E1, (p2 !! "hasOwnProperty") eqn:E2;
    try discriminate.
  - rewrite (routed_error p1 v E1), (routed_error p2 v0 E2). reflexivity.
  - injection Hdet as Hown.
    destruct (ownsStandardizedKey p1) eqn:O1; symmetry in Hown.
    + rewrite (proj1 (routed_standardized p1 E1 O1)),
              (proj1 (routed_standardized p2 E2 Hown)). reflexivity.
    + rewrite (proj1 (routed_legacy p1 E1 O1)), (proj1 (routed_legacy p2 E2 Hown)).
      reflexivity.
Qed.

End Routing.

(** The standardized-shaped payload with every field [undefined] is
    routed to the standardized pipeline; the legacy payload of the test
    suite is routed to the legacy pipeline. *)
Example routing_examples :
  Service.evaluationModel
    (Service.evaluateDevice noNumericStrings squareCurve (Service.Object allUndefined))
  = "STANDARDIZED_HARDWARE_REUSABILITY"
  /\ Service.evaluationModel
       (Service.evaluateDevice noNumericStrings squareCurve (Service.Object legacyInput))
     = "LEGACY_COMPONENT_HEALTH".
Proof. vm_compute. split; reflexivity. Qed.

(** C4 (evaluation of the code where it departs from the claim). The
    object owns the standardized key [storage_smart_status], yet it is
    not given to the standardized pipeline: its own [hasOwnProperty]
    shadows the built-in, the call throws, and the dispatcher answers
    with the error envelope. *)
Theorem shadowed_object_is_not_routed (StringToNumber : string -> number)
    (Math_pow : Q -> Q -> Q) :
  let envelope :=
    Service.evaluateDevice StringToNumber Math_pow (Service.Object shadowedStandardized) in
  ownsStandardizedKey shadowedStandardized = true
  /\ Service.evaluationModel envelope = "ERROR"
  /\ Service.standardized envelope = None
  /\ Service.error envelope = Some "input.hasOwnProperty is not a function".
Proof.
  cbv zeta. split; [vm_compute; reflexivity|].
  rewrite (routed_error StringToNumber Math_pow shadowedStandardized (VNumber (Num 1)))
    by (vm_compute; reflexivity).
  repeat split; reflexivity.
Qed.

(** ** The catch clause *)

Lemma bind_inr {A B : Type} (m : Service.exn + A) (k : A -> Service.exn + B) (b : B) :
  Service.bind m k = inr b -> exists a, m = inr a /\ k a = inr b.
Proof. destruct m as [e|a]; simpl; [discriminate|eauto]. Qed.

(** A [try] block that returns, returns one of the two tagged envelopes
    built from the result of the pipeline that the detection selected. *)
Lemma try_block_returns (StringToNumber : string -> number)
    (standardizedPipeline : Service.jsinput -> Service.exn + StandardizedResult)
    (scoreDevice : number -> number -> number -> number -> Service.exn + LegacyReport)
    (input : Service.jsinput) (envelope : Service.Envelope) :
  Service.try_block StringToNumber standardizedPipeline scoreDevice input = inr envelope ->
  (Service.isStandardizedInput input = inr true
   /\ Service.evaluationModel envelope = "STANDARDIZED_HARDWARE_REUSABILITY"
   /\ Service.error envelope = None
   /\ exists result,
        standardizedPipeline input = inr result
        /\ Service.standardized envelope = Some result
        /\ Service.total_score (Service.overall envelope) = totalScore result)
  \/ (Service.isStandardizedInput input = inr false
      /\ Service.evaluationModel envelope = "LEGACY_COMPONENT_HEALTH"
      /\ Service.error envelope = None
      /\ exists cpu' ram' storage' battery' report,
           scoreDevice cpu' ram' storage' battery' = inr report
           /\ Service.components envelope = Some (report_components report)
           /\ Service.total_score (Service.overall envelope) = report_totalScore report).
Proof.
  unfold Service.try_block. intros H.
  apply bind_inr in H as ([] & Hstd & H).
  - left. apply bind_inr in H as (result & Hres & H).
    injection H as <-. repeat split; try assumption. exists result. auto.
  - right.
    apply bind_inr in H as (c & _ & H). apply bind_inr in H as (r & _ & H).
    apply bind_inr in H as (s & _ & H). apply bind_inr in H as (b & _ & H).
    apply bind_inr in H as (report & Hrep & H).
    injection H as <-. repeat split; try assumption. exists c, r, s, b, report. auto.
Qed.

(** C5. The dispatcher is total, whatever the input and whatever the two
    pipelines do: when a step of the [try] block throws, the result is
    the error envelope, tagged "ERROR", with total score 0, health
    UNKNOWN and the reusable flag false; when no step throws, the result
    is the envelope of the pipeline that ran, tagged with that
    pipeline's evaluation model. *)
Theorem dispatcher_never_throws (StringToNumber : string -> number)
    (standardizedPipeline : Service.jsinput -> Service.exn + StandardizedResult)
    (scoreDevice : number -> number -> number -> number -> Service.exn + LegacyReport)
    (input : Service.jsinput) :
  let body :=
    Service.try_block StringToNumber standardizedPipeline scoreDevice (defaulted input) in
  let envelope := Service.dispatch StringToNumber standardizedPipeline scoreDevice input in
  (exists e,
     body = inl e
     /\ Service.evaluationModel envelope = "ERROR"
     /\ Service.error envelope = Some (Service.message e)
     /\ Service.total_score (Service.overall envelope) = Num 0
     /\ Service.overall_health (Service.overall envelope) = UNKNOWN
     /\ Service.overall_reusable (Service.overall envelope) = false)
  \/ (body = inr envelope
      /\ Service.error envelope = None
      /\ ((Service.isStandardizedInput (defaulted input) = inr true
           /\ Service.evaluationModel envelope = "STANDARDIZED_HARDWARE_REUSABILITY"
           /\ exists result,
                standardizedPipeline (defaulted input) = inr result
                /\ Service.standardized envelope = Some result)
          \/ (Service.isStandardizedInput (defaulted input) = inr false
              /\ Service.evaluationModel envelope = "LEGACY_COMPONENT_HEALTH"
              /\ exists cpu' ram' storage' battery' report,
                   scoreDevice cpu' ram' storage' battery' = inr report
                   /\ Service.components envelope = Some (report_components report)))).
Proof.
  cbv zeta. unfold Service.dispatch. fold (defaulted input).
  destruct (Service.try_block _ _ _ (defaulted input)) as [e|envelope] eqn:Hbody.
  - left. exists e. repeat split; reflexivity.
  - right. split; [reflexivity|].
    destruct (try_block_returns _ _ _ _ _ Hbody)
      as [(Hstd & Htag & Herr & result & Hres & Hfield & _)
         |(Hstd & Htag & Herr & c & r & s & b & report & Hrep & Hfield & _)].
    + split; [exact Herr|]. left. repeat split; try assumption. exists result. auto.
    + split; [exact Herr|]. right. repeat split; try assumption.
      exists c, r, s, b, report. auto.
Qed.

(** The three outcomes, on the dispatcher linked with the engine: [null]
    throws at the first property read, a throwing collaborator is caught
    as well, and the payloads of the test suite return tagged envelopes. *)
Example dispatcher_outcomes :
  Service.evaluationModel
    (Service.evaluateDevice noNumericStrings squareCurve (Service.Primitive VNull)) = "ERROR"
  /\ Service.error
       (Service.evaluateDevice noNumericStrings squareCurve (Service.Primitive VNull))
     = Some "Cannot read properties of null (reading 'hasOwnProperty')"
  /\ Service.evaluationModel
       (Service.dispatch noNumericStrings
          (fun _ => inl {| Service.message := "engine fault" |})
          (fun _ _ _ _ => inl {| Service.message := "engine fault" |})
          (Service.Object standardizedHighGrade)) = "ERROR"
  /\ Service.evaluationModel
       (Service.evaluateDevice noNumericStrings squareCurve
          (Service.Object standardizedHighGrade)) = "STANDARDIZED_HARDWARE_REUSABILITY"
  /\ Service.evaluationModel
       (Service.evaluateDevice noNumericStrings squareCurve (Service.Primitive VUndefined))
     = "LEGACY_COMPONENT_HEALTH"
  /\ Service.evaluationModel
       (Service.evaluateDevice noNumericStrings squareCurve
          (Service.Primitive (VString "diagnostics"))) = "LEGACY_COMPONENT_HEALTH".
Proof. vm_compute. repeat split; reflexivity. Qed.

(* ================================================================== *)
(** * Further properties of the engine *)
(* ================================================================== *)

(** ** Normalisation *)

Lemma clamp_nan_or_between (n : number) (lo hi : Q) :
  (lo <= hi)%Q -> nan_or_between lo hi (clamp n (Num lo) (Num hi)).
Proof.
  intros H. destruct n as [|v]; [rewrite clamp_NaN; exact I|].
  pose proof (clamp_between v lo hi H) as Hb.
  destruct (clamp (Num v) (Num lo) (Num hi)); [exact I|exact Hb].
Qed.

Lemma Math_max_zero_nonnegative (n : number) : nan_or_nonnegative (Math_max (Num 0) n).
Proof.
  destruct n as [|v]; [exact I|]. unfold Math_max.
  destruct (Qle_bool 0 v) eqn:E; simpl; [apply Qle_bool_true in E; exact E|lra].
Qed.

(** X1. Whatever the payload holds, the normalised numeric fields are
    in their domain or [NaN]: the three percentages lie in [0, 100],
    the error count and the two temperatures are not negative. *)
Theorem normalizeInput_ranges (StringToNumber : string -> number)
    (input : gmap string value) :
  let d := normalizeInput StringToNumber input in
  nan_or_between 0 100 (performance_percentage d)
  /\ nan_or_between 0 100 (ssd_wear_percentage d)
  /\ nan_or_between 0 100 (battery_health_percent d)
  /\ nan_or_nonnegative (ram_test_errors d)
  /\ nan_or_nonnegative (idle_temperature_celsius d)
  /\ nan_or_nonnegative (load_temperature_celsius d).
Proof.
  cbv zeta. unfold normalizeInput.
  cbn [performance_percentage ssd_wear_percentage battery_health_percent
       ram_test_errors idle_temperature_celsius load_temperature_celsius].
  repeat split; try (apply clamp_nan_or_between; lra); apply Math_max_zero_nonnegative.
Qed.

(** X2. A finite percentage inside [0, 100] goes through normalisation
    unchanged, and so does a finite temperature that is not negative. *)
Theorem normalizeInput_keeps_valid (StringToNumber : string -> number)
    (input : gmap string value) (key : string) (q : Q) :
  get input key = VNumber (Num q) -> (0 <= q)%Q ->
  let d := normalizeInput StringToNumber input in
  (key = "performance_percentage" -> (q <= 100)%Q -> same (performance_percentage d) (Num q))
  /\ (key = "ssd_wear_percentage" -> (q <= 100)%Q -> same (ssd_wear_percentage d) (Num q))
  /\ (key = "battery_health_percent" -> (q <= 100)%Q ->
        same (battery_health_percent d) (Num q))
  /\ (key = "ram_test_errors" -> same (ram_test_errors d) (Num q))
  /\ (key = "idle_temperature_celsius" -> same (idle_temperature_celsius d) (Num q))
  /\ (key = "load_temperature_celsius" -> same (load_temperature_celsius d) (Num q)).
Proof.
  intros Hget H0. cbv zeta. unfold normalizeInput.
  cbn [performance_percentage ssd_wear_percentage battery_health_percent
       ram_test_errors idle_temperature_celsius load_temperature_celsius].
  repeat split; intros ->; rewrite Hget; cbn [coalesce JS.ToNumber];
    try (intros H100; apply clamp_inside; assumption);
    unfold Math_max; destruct (Qle_bool 0 q) eqn:E; simpl; try reflexivity;
    apply Qle_bool_false in E; lra.
Qed.

Lemma normalizeInput_keeps_valid_witness :
  same (battery_health_percent (normalizeInput noNumericStrings standardizedHighGrade))
       (Num 92).
Proof.
  assert (H0 : (0 <= 92)%Q) by (vm_compute; discriminate).
  assert (H100 : (92 <= 100)%Q) by (vm_compute; discriminate).
  assert (Hget : get standardizedHighGrade "battery_health_percent" = VNumber (Num 92))
    by (vm_compute; reflexivity).
  exact (proj1 (proj2 (proj2
           (normalizeInput_keeps_valid noNumericStrings standardizedHighGrade
              "battery_health_percent" 92 Hget H0))) eq_refl H100).
Defined.

Lemma coalesce_nullish (v d : value) : nullish v -> coalesce v d = d.
Proof. intros [-> | ->]; reflexivity. Qed.

Lemma or_nullish (v d : value) : nullish v -> or v d = d.
Proof. intros [-> | ->]; reflexivity. Qed.

Lemma strict_eq_nullish (v : value) (b : bool) : nullish v -> strict_eq v (VBool b) = false.
Proof. intros [-> | ->]; reflexivity. Qed.

(** X3. A payload in which every field that the normaliser reads is
    absent, [undefined] or [null] normalises to the record of defaults:
    status "UNKNOWN", no errors, no stress flag, zero percentages, no
    damage, intact ports, zero temperatures. A purely legacy-shaped
    payload is such a payload. *)
Theorem normalizeInput_defaults (StringToNumber : string -> number)
    (input : gmap string value) :
  (forall key, In key fieldKeys -> nullish (get input key)) ->
  normalizeInput StringToNumber input = defaults.
Proof.
  intros H. unfold normalizeInput.
  rewrite (or_nullish (get input "storage_smart_status"))
    by (apply H; simpl; tauto).
  rewrite !coalesce_nullish by (apply H; simpl; tauto).
  rewrite !strict_eq_nullish by (apply H; simpl; tauto).
  reflexivity.
Qed.

Lemma normalizeInput_defaults_witness :
  normalizeInput noNumericStrings legacyInput = defaults.
Proof.
  apply normalizeInput_defaults.
  intros key Hin. left. simpl in Hin.
  repeat (destruct Hin as [<- | Hin]; [vm_compute; reflexivity|]). destruct Hin.
Defined.

(** ** The table lookup *)

(** The lookup answers 0 or the score of a row whose threshold is met. *)
Lemma scoreLookup_result (value : number) (rules : list rule) :
  scoreLookup value rules = Num 0
  \/ exists r, In r rules /\ ge value (threshold r) = true
               /\ scoreLookup value rules = score r.
Proof.
  induction rules as [|r rest IH]; [left; reflexivity|].
  simpl. destruct (ge value (threshold r)) eqn:E.
  - right. exists r. auto.
  - destruct IH as [H0 | (r' & Hin & Hge & Hs)]; [left; exact H0|].
    right. exists r'. auto.
Qed.

(** X4. A value that is [NaN] meets no threshold: the lookup answers 0
    on every table; and on every table and value the answer is 0 or the
    score of the first row whose threshold the value meets, no row before
    it being met. *)
Theorem scoreLookup_first_match (value : number) (rules : list rule) :
  scoreLookup NaN rules = Num 0
  /\ (scoreLookup value rules = Num 0
        /\ (forall r, In r rules -> ge value (threshold r) = false)
      \/ exists before r after,
           rules = (before ++ r :: after)%list
           /\ (forall r', In r' before -> ge value (threshold r') = false)
           /\ ge value (threshold r) = true
           /\ scoreLookup value rules = score r).
Proof.
  split.
  - induction rules as [|r rest IH]; [reflexivity|]. simpl. exact IH.
  - induction rules as [|r rest IH].
    + left. split; [reflexivity|]. intros r [].
    + simpl. destruct (ge value (threshold r)) eqn:E.
      * right. exists [], r, rest. repeat split; try assumption. intros r' [].
      * destruct IH as [[H0 Hnone] | (before & r' & after & -> & Hb & Hge & Hs)].
        -- left. split; [exact H0|]. intros r' [<- | Hin]; [exact E|auto].
        -- right. exists (r :: before), r', after. repeat split; try assumption.
           intros x [<- | Hin]; [exact E|auto].
Qed.

(** X5. On a table in descending order the lookup is monotone: a larger
    value never gets a smaller score. *)
Theorem scoreLookup_monotone (rules : list rule) (v1 v2 : Q) :
  descending rules -> (v1 <= v2)%Q ->
  number_le (scoreLookup (Num v1) rules) (scoreLookup (Num v2) rules).
Proof.
  intros Hdesc Hle. induction rules as [|r rest IH]; [simpl; lra|].
  destruct Hdesc as ((t & s & Ht & Hs & Hs0 & Hrest) & Hdesc').
  specialize (IH Hdesc'). cbn [scoreLookup]. rewrite Ht, Hs. cbn [ge].
  destruct (Qle_bool t v1) eqn:E1; destruct (Qle_bool t v2) eqn:E2.
  - simpl. lra.
  - apply Qle_bool_true in E1. apply Qle_bool_false in E2. lra.
  - destruct (scoreLookup_result (Num v1) rest) as [-> | (r' & Hin & _ & ->)].
    + simpl. exact Hs0.
    + destruct (Hrest r' Hin) as (t' & s' & _ & -> & _ & Hs'). simpl. exact Hs'.
  - exact IH.
Qed.

Lemma PERFORMANCE_SCORING_descending : descending PERFORMANCE_SCORING.
Proof.
  simpl. repeat split; try (do 2 eexists; repeat split; try reflexivity).
  all: try (vm_compute; discriminate).
  all: intros r' Hin; simpl in Hin;
       repeat (destruct Hin as [<- | Hin];
               [do 2 eexists; repeat split; try reflexivity; vm_compute; discriminate|]);
       destruct Hin.
Qed.

Lemma BATTERY_HEALTH_SCORING_descending : descending BATTERY_HEALTH_SCORING.
Proof.
  simpl. repeat split; try (do 2 eexists; repeat split; try reflexivity).
  all: try (vm_compute; discriminate).
  all: intros r' Hin; simpl in Hin;
       repeat (destruct Hin as [<- | Hin];
               [do 2 eexists; repeat split; try reflexivity; vm_compute; discriminate|]);
       destruct Hin.
Qed.

Lemma scoreLookup_monotone_witness :
  number_le (scoreLookup (Num 79) PERFORMANCE_SCORING) (scoreLookup (Num 80) PERFORMANCE_SCORING)
  /\ number_le (scoreLookup (Num 59) BATTERY_HEALTH_SCORING)
               (scoreLookup (Num 60) BATTERY_HEALTH_SCORING).
Proof.
  assert (H1 : (79 <= 80)%Q) by (vm_compute; discriminate).
  assert (H2 : (59 <= 60)%Q) by (vm_compute; discriminate).
  split.
  - exact (scoreLookup_monotone PERFORMANCE_SCORING 79 80 PERFORMANCE_SCORING_descending H1).
  - exact (scoreLookup_monotone BATTERY_HEALTH_SCORING 59 60
             BATTERY_HEALTH_SCORING_descending H2).
Defined.

(** ** The four category scores *)

(** X6. The final clamp of a category never bites. The functional score
    is the sum of the four sub-scores reported in its details, the
    remaining-life score is the sum of its two sub-scores, and the
    physical score is 10 minus the damage and port deductions minus the
    penalty of the reported thermal status. *)
Theorem category_scores_unclamped (diag : NormalizedDiagnostic) :
  (let r := scoreFunctionalIntegrity diag in
   let d := functional_details r in
   functional_score r =
   add (add (add (storage_score (fd_storage d)) (ram_score (fd_ram d)))
            (cpu_score (fd_cpu d))) (gpu_score (fd_gpu d)))
  /\ (let r := scoreRemainingLife diag in
      let d := remaining_details r in
      remaining_score r = add (ssd_score (rd_ssd d)) (battery_score (rd_battery d)))
  /\ (let r := scorePhysicalThermal diag in
      physical_score r =
      Num (10 - physicalDeductions diag - thermalPenalty (thermalStatus (physical_details r)))).
Proof.
  cbv zeta. split; [|split].
  - unfold scoreFunctionalIntegrity.
    cbn [functional_score functional_details fd_storage fd_ram fd_cpu fd_gpu
         storage_score ram_score cpu_score gpu_score].
    split_conditions; reflexivity.
  - unfold scoreRemainingLife.
    cbn [remaining_score remaining_details rd_ssd rd_battery ssd_score battery_score].
    destruct (ssd_wear_percentage diag) as [|w], (battery_health_percent diag) as [|b];
      cbn [sub scoreLookup SSD_WEAR_SCORING BATTERY_HEALTH_SCORING threshold score ge];
      split_conditions; reflexivity.
  - unfold scorePhysicalThermal, physicalDeductions.
    destruct (physical_damage diag), (port_integrity diag); cbn [negb];
      split_conditions; reflexivity.
Qed.

(** Integers, as numbers. *)
Lemma add_integers (a b : Z) :
  add (Num (inject_Z a)) (Num (inject_Z b)) = Num (inject_Z (a + b)).
Proof.
  unfold add, inject_Z, Qplus. cbn [Qnum Qden]. rewrite !Z.mul_1_r. reflexivity.
Qed.

(** Close a goal [exists z, Num literal = Num (inject_Z z) /\ bounds]. *)
Ltac integer_literal :=
  vm_compute;
  match goal with
  | |- exists z, Num (Qmake ?n 1) = _ /\ _ => exists n; split; [reflexivity|split; discriminate]
  end.

Lemma functional_score_integer (diag : NormalizedDiagnostic) :
  exists z, functional_score (scoreFunctionalIntegrity diag) = Num (inject_Z z)
            /\ (0 <= z <= 40)%Z.
Proof.
  unfold scoreFunctionalIntegrity. cbn [functional_score].
  split_conditions; integer_literal.
Qed.

Lemma performance_score_integer (diag : NormalizedDiagnostic) :
  exists z, performance_score (scorePerformanceRetention diag) = Num (inject_Z z)
            /\ (0 <= z <= 30)%Z.
Proof.
  unfold scorePerformanceRetention. cbn [performance_score].
  destruct (performance_percentage diag) as [|p]; [integer_literal|].
  rewrite performance_lookup. split_conditions; integer_literal.
Qed.

Lemma remaining_score_integer (diag : NormalizedDiagnostic) :
  exists z, remaining_score (scoreRemainingLife diag) = Num (inject_Z z)
            /\ (0 <= z <= 20)%Z.
Proof.
  unfold scoreRemainingLife. cbn [remaining_score].
  destruct (ssd_wear_percentage diag) as [|w], (battery_health_percent diag) as [|b];
    cbn [sub scoreLookup SSD_WEAR_SCORING BATTERY_HEALTH_SCORING threshold score ge];
    split_conditions; integer_literal.
Qed.

Lemma physical_score_integer (diag : NormalizedDiagnostic) :
  exists z, physical_score (scorePhysicalThermal diag) = Num (inject_Z z)
            /\ (0 <= z <= 10)%Z.
Proof.
  unfold scorePhysicalThermal.
  destruct (physical_damage diag), (port_integrity diag); cbn [negb];
    split_conditions; integer_literal.
Qed.

Lemma standardized_total_is_integer (StringToNumber : string -> number)
    (input : gmap string value) :
  exists z, totalScore (evaluateDeviceStandardized StringToNumber input) = Num (inject_Z z)
            /\ (0 <= z <= 100)%Z.
Proof.
  unfold evaluateDeviceStandardized. cbn [totalScore].
  set (diag := normalizeInput StringToNumber input).
  destruct (functional_score_integer diag) as (f & -> & Hf).
  destruct (performance_score_integer diag) as (p & -> & Hp).
  destruct (remaining_score_integer diag) as (r & -> & Hr).
  destruct (physical_score_integer diag) as (ph & -> & Hph).
  rewrite !add_integers. exists (f + p + r + ph)%Z. split; [reflexivity|lia].
Qed.

(** X7. The standardized total is a whole number of points between 0
    and 100, for every payload, and it is the sum of the four category
    scores that the result reports. *)
Theorem standardized_total_whole (StringToNumber : string -> number)
    (input : gmap string value) :
  let r := evaluateDeviceStandardized StringToNumber input in
  (exists z, totalScore r = Num (inject_Z z) /\ (0 <= z <= 100)%Z)
  /\ totalScore r =
     add (add (add (category_score (functionalIntegrity (categories r)))
                   (category_score (performanceRetention (categories r))))
              (category_score (remainingLife (categories r))))
         (category_score (physicalThermal (categories r))).
Proof.
  cbv zeta. split; [apply standardized_total_is_integer|reflexivity].
Qed.

(** [pct] of a score between 0 and a positive maximum. *)
Lemma pct_between (v m : Q) :
  (0 < m)%Q -> (0 <= v)%Q -> (v <= m)%Q -> between 0 100 (pct (Num v) (Num m)).
Proof.
  intros Hm H0 H1. unfold pct, div.
  assert (E : Qeq_bool m 0 = false).
  { destruct (Qeq_bool m 0) eqn:E; [|reflexivity]. apply Qeq_bool_iff in E. lra. }
  rewrite E. cbn [mul Math_round between].
  assert (Hr : (0 <= v / m * 100 <= 100)%Q).
  { assert (Hd : (0 <= v / m <= 1)%Q).
    { split.
      - apply Qle_shift_div_l; [exact Hm|lra].
      - apply Qle_shift_div_r; [exact Hm|lra]. }
    lra. }
  destruct (Math_round_between (v / m * 100) 0 100) as [Hlo Hhi].
  { change (inject_Z 0) with 0%Q. lra. }
  { change (inject_Z 100) with 100%Q. lra. }
  rewrite Zle_Qle in Hlo, Hhi. split; assumption.
Qed.

(** X8. Every percentage shown with a category is a number between 0
    and 100, for every payload: the three computed by [pct], and the
    performance percentage, whose [NaN] is replaced by 0. *)
Theorem category_percentages_between (StringToNumber : string -> number)
    (input : gmap string value) :
  let c := categories (evaluateDeviceStandardized StringToNumber input) in
  between 0 100 (percentage (functionalIntegrity c))
  /\ between 0 100 (percentage (performanceRetention c))
  /\ between 0 100 (percentage (remainingLife c))
  /\ between 0 100 (percentage (physicalThermal c)).
Proof.
  cbv zeta. unfold evaluateDeviceStandardized.
  cbn [categories functionalIntegrity performanceRetention remainingLife physicalThermal
       percentage SCORING_CATEGORIES FUNCTIONAL_INTEGRITY PERFORMANCE_RETENTION
       REMAINING_LIFE PHYSICAL_THERMAL].
  set (diag := normalizeInput StringToNumber input).
  repeat split.
  - pose proof (functional_score_between diag) as H.
    destruct (functional_score _) as [|v]; [destruct H|]. simpl in H.
    apply pct_between; lra.
  - assert (H : nan_or_between 0 100 (performance_percentage diag))
      by (apply clamp_nan_or_between; lra).
    unfold scorePerformanceRetention. cbn [performance_details performancePercent].
    destruct (performance_percentage diag) as [|p]; [simpl; lra|].
    cbn [ToBoolean]. destruct (Qeq_bool p 0); simpl; [lra|exact H].
  - pose proof (remaining_score_between diag) as H.
    destruct (remaining_score _) as [|v]; [destruct H|]. simpl in H.
    apply pct_between; lra.
  - pose proof (physical_score_between diag) as H.
    destruct (physical_score _) as [|v]; [destruct H|]. simpl in H.
    apply pct_between; lra.
Qed.

Lemma remaining_score_is_sum (diag : NormalizedDiagnostic) :
  remaining_score (scoreRemainingLife diag) =
  add (ssd_score (rd_ssd (remaining_details (scoreRemainingLife diag))))
      (battery_score (rd_battery (remaining_details (scoreRemainingLife diag)))).
Proof.
  unfold scoreRemainingLife.
  cbn [remaining_score remaining_details rd_ssd rd_battery ssd_score battery_score].
  destruct (ssd_wear_percentage diag) as [|w], (battery_health_percent diag) as [|b];
    cbn [sub scoreLookup SSD_WEAR_SCORING BATTERY_HEALTH_SCORING threshold score ge];
    split_conditions; reflexivity.
Qed.

(** X9. Better readings never cost points: the performance score does
    not decrease when the percentage grows (the no-data 0 included), and
    the remaining-life score does not decrease when the SSD wear falls
    and the battery health grows. *)
Theorem category_scores_monotone (d1 d2 : NormalizedDiagnostic) (p1 p2 w1 w2 b1 b2 : Q) :
  performance_percentage d1 = Num p1 -> performance_percentage d2 = Num p2 ->
  ssd_wear_percentage d1 = Num w1 -> ssd_wear_percentage d2 = Num w2 ->
  battery_health_percent d1 = Num b1 -> battery_health_percent d2 = Num b2 ->
  (p1 <= p2)%Q -> (w2 <= w1)%Q -> (b1 <= b2)%Q ->
  number_le (performance_score (scorePerformanceRetention d1))
            (performance_score (scorePerformanceRetention d2))
  /\ number_le (remaining_score (scoreRemainingLife d1))
               (remaining_score (scoreRemainingLife d2)).
Proof.
  intros H1 H2 Hw1 Hw2 Hb1 Hb2 Hle Hw Hb. split.
  - unfold scorePerformanceRetention.
    cbn [performance_score]. rewrite H1, H2. rewrite !performance_lookup.
    unfold gt, Qlt_bool.
    split_comparisons; cbn [negb]; try (vm_compute; discriminate); lra.
  - rewrite !remaining_score_is_sum.
    rewrite (ssd_score_code d1 w1 Hw1), (ssd_score_code d2 w2 Hw2).
    rewrite (battery_score_code d1 b1 Hb1), (battery_score_code d2 b2 Hb2).
    split_comparisons; try (vm_compute; discriminate); lra.
Qed.

Lemma category_scores_monotone_witness :
  number_le
    (performance_score (scorePerformanceRetention
       (withPerformance (Num 0) (withWear (Num 85) (Num 59) defaults))))
    (performance_score (scorePerformanceRetention
       (withPerformance (Num 1) (withWear (Num 80) (Num 60) defaults))))
  /\ number_le
       (remaining_score (scoreRemainingLife
          (withPerformance (Num 0) (withWear (Num 85) (Num 59) defaults))))
       (remaining_score (scoreRemainingLife
          (withPerformance (Num 1) (withWear (Num 80) (Num 60) defaults)))).
Proof.
  apply (category_scores_monotone
           (withPerformance (Num 0) (withWear (Num 85) (Num 59) defaults))
           (withPerformance (Num 1) (withWear (Num 80) (Num 60) defaults))
           0 1 85 80 59 60); try reflexivity; vm_compute; discriminate.
Defined.

(** ** Recommendations *)

Lemma In_action_push (a : string) (c : bool) (r : Recommendation) :
  In a (map action (if c then [r] else [])) <-> c = true /\ action r = a.
Proof.
  destruct c; simpl; [|intuition discriminate]. intuition.
Qed.

(** The positive-outlook entry, as a function of the score. *)
Lemma positive_entry (score' : number) (a : string) :
  In a (map action
    (if ge score' (Num 85)
     then [{| priority := "LOW"; action := "READY FOR REUSE";
              rec_description := [Lit "Excellent condition."] |}]
     else if ge score' (Num 70)
     then [{| priority := "LOW"; action := "MINOR UPGRADES";
              rec_description := [Lit "Consider component upgrades."] |}]
     else if ge score' (Num 50)
     then [{| priority := "MEDIUM"; action := "LIMITED USE";
              rec_description := [Lit "Non-critical applications only."] |}]
     else []))
  <-> match tierOf score' with
      | HIGH_GRADE => a = "READY FOR REUSE"
      | REUSABLE => a = "MINOR UPGRADES"
      | LIMITED => a = "LIMITED USE"
      | NOT_RECOMMENDED => False
      end.
Proof.
  unfold tierOf.
  destruct (ge score' (Num 85)); [simpl; intuition|].
  destruct (ge score' (Num 70)); [simpl; intuition|].
  destruct (ge score' (Num 50)); simpl; intuition.
Qed.

(** Which actions a recommendation list holds. *)
Lemma In_generateRecommendations (a : string) (score' : number) (c : classification)
    (functional : FunctionalIntegrity) (remaining : RemainingLife)
    (physical : PhysicalThermal) :
  In a (map action (generateRecommendations score' c functional remaining physical)) <->
  (lt score' (Num 50) = true /\ a = "DO NOT REUSE")
  \/ (lt (storage_score (fd_storage (functional_details functional))) (Num 5) = true
      /\ a = "REPLACE STORAGE")
  \/ (gt (ram_errors (fd_ram (functional_details functional))) (Num 0) = true
      /\ a = "REPLACE RAM")
  \/ (ToBoolean (cpu_stable (fd_cpu (functional_details functional))) = false
      /\ a = "CPU FAILED")
  \/ (gt (wearPercent (rd_ssd (remaining_details remaining))) (Num 80) = true
      /\ a = "SSD END OF LIFE")
  \/ (lt (healthPercent (rd_battery (remaining_details remaining))) (Num 60) = true
      /\ a = "REPLACE BATTERY")
  \/ (thermalStatus (physical_details physical) = CRITICAL /\ a = "THERMAL ISSUE")
  \/ (physicalDamage (physical_details physical) = true /\ a = "INSPECT DAMAGE")
  \/ match tierOf score' with
     | HIGH_GRADE => a = "READY FOR REUSE"
     | REUSABLE => a = "MINOR UPGRADES"
     | LIMITED => a = "LIMITED USE"
     | NOT_RECOMMENDED => False
     end.
Proof.
  unfold generateRecommendations. cbv zeta.
  rewrite !map_app, !in_app_iff, !In_action_push, positive_entry.
  cbn [action]. rewrite Bool.negb_true_iff.
  assert (Hth : (match thermalStatus (physical_details physical) with
                 | CRITICAL => true | _ => false end) = true
                <-> thermalStatus (physical_details physical) = CRITICAL).
  { destruct (thermalStatus _); split; congruence. }
  rewrite Hth.
  intuition (subst; auto).
Qed.

(** X10. The outlook entry of the recommendations follows the tier of
    the result, for every payload: "DO NOT REUSE" is issued exactly for
    NOT_RECOMMENDED, "LIMITED USE" exactly for LIMITED, "MINOR UPGRADES"
    exactly for REUSABLE and "READY FOR REUSE" exactly for HIGH_GRADE. *)
Theorem outlook_follows_tier (StringToNumber : string -> number)
    (input : gmap string value) :
  let r := evaluateDeviceStandardized StringToNumber input in
  let actions := map action (recommendedActions r) in
  let t := view_tier (result_classification r) in
  (In "DO NOT REUSE" actions <-> t = NOT_RECOMMENDED)
  /\ (In "LIMITED USE" actions <-> t = LIMITED)
  /\ (In "MINOR UPGRADES" actions <-> t = REUSABLE)
  /\ (In "READY FOR REUSE" actions <-> t = HIGH_GRADE).
Proof.
  cbv zeta.
  destruct (standardized_total_is_integer StringToNumber input) as (z & Hz & Hrange).
  unfold evaluateDeviceStandardized in *.
  cbn [recommendedActions result_classification view_tier totalScore] in *.
  set (total := add _ _) in *. rewrite Hz. clearbody total. clear Hz total.
  rewrite !In_generateRecommendations.
  assert (Hlt : lt (Num (inject_Z z)) (Num 50) = true
                <-> tierOf (Num (inject_Z z)) = NOT_RECOMMENDED).
  { unfold tierOf, lt, ge, Qlt_bool.
    split_comparisons; cbn [negb]; split; try congruence; intros _; exfalso; lra. }
  repeat split; intros H.
  - repeat (destruct H as [[H1 H2] | H]; try discriminate H2).
    + apply Hlt; exact H1.
    + destruct (tierOf _); try discriminate H; tauto.
  - left. split; [apply Hlt; exact H|reflexivity].
  - repeat (destruct H as [[H1 H2] | H]; try discriminate H2).
    destruct (tierOf _); try discriminate H; tauto.
  - do 8 right. rewrite H. reflexivity.
  - repeat (destruct H as [[H1 H2] | H]; try discriminate H2).
    destruct (tierOf _); try discriminate H; tauto.
  - do 8 right. rewrite H. reflexivity.
  - repeat (destruct H as [[H1 H2] | H]; try discriminate H2).
    destruct (tierOf _); try discriminate H; tauto.
  - do 8 right. rewrite H. reflexivity.
Qed.

(* ================================================================== *)
(** * Further properties of the legacy pipeline *)
(* ================================================================== *)

(** ** Component reusability *)



(** X12. The reusability summary of a legacy report is consistent for
    all four readings, finite or not: the count of reusable components
    is a whole number between 0 and 4, it counts the entries of the
    breakdown that are marked reusable, the breakdown has the four
    entries in the order cpu, ram, storage, battery, and the two counts
    add up to 4. *)
Theorem reusability_summary_consistent (Math_pow : Q -> Q -> Q)
    (cpu' ram' storage' battery' : number) :
  let summary :=
    report_reusabilitySummary (evaluateDevice Math_pow cpu' ram' storage' battery') in
  exists k : nat,
    k = length (filter entry_reusable (breakdown summary))
    /\ (k <= 4)%nat
    /\ reusableCount summary = Num (inject_Z (Z.of_nat k))
    /\ same (nonReusableCount summary) (Num (inject_Z (4 - Z.of_nat k)))
    /\ same (add (reusableCount summary) (nonReusableCount summary))
            (totalComponents summary)
    /\ map entry_component (breakdown summary) = ["cpu"; "ram"; "storage"; "battery"].
Proof.
  cbv zeta. unfold evaluateDevice, values, buildLegacyComponentBreakdown.
  cbn [report_reusabilitySummary breakdown reusableCount nonReusableCount totalComponents
       cpu ram storage battery breakdown_reusability map entry_component].
  destruct (isComponentReusable "cpu" cpu') as [[] ? ?];
    destruct (isComponentReusable "ram" ram') as [[] ? ?];
    destruct (isComponentReusable "storage" storage') as [[] ? ?];
    destruct (isComponentReusable "battery" battery') as [[] ? ?];
    eexists; (split; [vm_compute; reflexivity|]); repeat split;
    try (vm_compute; lia); vm_compute; reflexivity.
Qed.

(** ** Scores, labels and the raw readings *)

(** The linear scorers in closed form. *)
Lemma scoreCPU_closed (c : Q) :
  scoreCPU (Num c) =
  if Qle_bool 30 (c / 100 * 30) then
    (if Qle_bool 0 30 then Num 30 else Num 0)
  else if Qle_bool 0 (c / 100 * 30) then Num (c / 100 * 30) else Num 0.
Proof.
  unfold scoreCPU, clamp. cbn [MAX_SCORES cpu div]. literal_tests. cbn [mul].
  unfold Math_min, Math_max. destruct (Qle_bool 30 (c / 100 * 30)); reflexivity.
Qed.

Lemma scoreStorage_closed (s : Q) :
  scoreStorage (Num s) =
  if Qle_bool 25 (s / 100 * 25) then
    (if Qle_bool 0 25 then Num 25 else Num 0)
  else if Qle_bool 0 (s / 100 * 25) then Num (s / 100 * 25) else Num 0.
Proof.
  unfold scoreStorage, clamp. cbn [MAX_SCORES storage div]. literal_tests. cbn [mul].
  unfold Math_min, Math_max. destruct (Qle_bool 25 (s / 100 * 25)); reflexivity.
Qed.

Lemma cpu_health_by_reading (c : Q) :
  getComponentHealth (scoreCPU (Num c)) (cpu MAX_SCORES) = healthByReading 80 50 c.
Proof.
  rewrite scoreCPU_closed. unfold getComponentHealth, healthByReading.
  cbn [MAX_SCORES cpu COMPONENT_THRESHOLDS good fair].
  split_comparisons; cbn [div]; literal_tests; cbn [ge];
    split_comparisons; try reflexivity;
    repeat match goal with H : context [Qdiv] |- _ => revert H end;
    literal_division; intros; lra.
Qed.

Lemma storage_health_by_reading (s : Q) :
  getComponentHealth (scoreStorage (Num s)) (storage MAX_SCORES) = healthByReading 80 50 s.
Proof.
  rewrite scoreStorage_closed. unfold getComponentHealth, healthByReading.
  cbn [MAX_SCORES storage COMPONENT_THRESHOLDS good fair].
  split_comparisons; cbn [div]; literal_tests; cbn [ge];
    split_comparisons; try reflexivity;
    repeat match goal with H : context [Qdiv] |- _ => revert H end;
    literal_division; intros; lra.
Qed.

Lemma ram_health_by_reading (r : Q) :
  getComponentHealth (scoreRAM (Num r)) (ram MAX_SCORES) = healthByReading (128 # 5) 16 r.
Proof.
  unfold scoreRAM, clamp, getComponentHealth, healthByReading.
  cbn [MAX_SCORES ram COMPONENT_THRESHOLDS good fair Math_min].
  destruct (Qle_bool r 32) eqn:E32;
    [apply Qle_bool_true in E32 | apply Qle_bool_false in E32];
    cbn [div]; literal_tests; cbn [mul]; unfold Math_min, Math_max;
    split_comparisons; cbn [div]; literal_tests; cbn [ge];
    split_comparisons; try reflexivity;
    repeat match goal with H : context [Qdiv] |- _ => revert H end;
    literal_division; intros; lra.
Qed.


(** X14. Between 8 GB and 16 GB the two judgements on the ram disagree:
    its health label is POOR, its verdict is "FULLY REUSABLE" with
    confidence 95, and because of the POOR label the device as a whole
    is not reusable, whatever the other readings. *)
Theorem ram_poor_yet_fully_reusable (Math_pow : Q -> Q -> Q) (c r s b : Q) :
  (8 <= r)%Q -> (r < 16)%Q ->
  let report := evaluateDevice Math_pow (Num c) (Num r) (Num s) (Num b) in
  comp_health (ram (report_components report)) = POOR
  /\ breakdown_reusability (ram (report_componentBreakdowns report))
     = {| reusable := true; confidence := Num 95; verdict := "FULLY REUSABLE" |}
  /\ overallReusable (report_reusabilitySummary report) = false
  /\ longevity_reusable (report_longevity report) = false.
Proof.
  intros H8 H16. cbv zeta. unfold evaluateDevice.
  cbn [report_components report_componentBreakdowns report_reusabilitySummary
       report_longevity overallReusable longevity_reusable ram comp_health
       buildLegacyComponentBreakdown breakdown_reusability].
  assert (Hram : getComponentHealth (scoreRAM (Num r)) (ram MAX_SCORES) = POOR).
  { rewrite ram_health_by_reading. unfold healthByReading.
    split_comparisons; try reflexivity; lra. }
  split; [exact Hram|]. split.
  - unfold isComponentReusable. cbn [lookup_key REUSABILITY String.eqb Ascii.eqb Bool.eqb
      idealMin reusableMin ge].
    simpl. split_comparisons; try reflexivity; lra.
  - assert (Hnot : isReusable
      {| cpu := {| comp_score := toFixed2 (scoreCPU (Num c));
                   comp_health := getComponentHealth (scoreCPU (Num c)) (cpu MAX_SCORES) |};
         ram := {| comp_score := toFixed2 (scoreRAM (Num r));
                   comp_health := getComponentHealth (scoreRAM (Num r)) (ram MAX_SCORES) |};
         storage := {| comp_score := toFixed2 (scoreStorage (Num s));
                       comp_health :=
                         getComponentHealth (scoreStorage (Num s)) (storage MAX_SCORES) |};
         battery := {| comp_score := toFixed2 (scoreBattery Math_pow (Num b));
                       comp_health :=
                         getComponentHealth (scoreBattery Math_pow (Num b))
                           (battery MAX_SCORES) |} |}
      (weightedTotal
         {| cpu := scoreCPU (Num c); ram := scoreRAM (Num r);
            storage := scoreStorage (Num s);
            battery := scoreBattery Math_pow (Num b) |}) = false).
    { unfold isReusable, values. cbn [cpu ram storage battery comp_health existsb].
      rewrite Hram. cbn [health_eqb]. rewrite Bool.orb_true_r. cbn [negb].
      apply Bool.andb_false_r. }
    split; exact Hnot.
Qed.

Lemma ram_poor_yet_fully_reusable_witness :
  let report := evaluateDevice squareCurve (Num 100) (Num 8) (Num 100) (Num 100) in
  comp_health (ram (report_components report)) = POOR
  /\ verdict (breakdown_reusability (ram (report_componentBreakdowns report)))
     = "FULLY REUSABLE"
  /\ overallReusable (report_reusabilitySummary report) = false.
Proof.
  assert (H8 : (8 <= 8)%Q) by (vm_compute; discriminate).
  assert (H16 : (8 < 16)%Q) by reflexivity.
  destruct (ram_poor_yet_fully_reusable squareCurve 100 8 100 100 H8 H16)
    as (Hh & Hv & Ho & _).
  cbv zeta. split; [exact Hh|]. split; [rewrite Hv; reflexivity|exact Ho].
Defined.

(** [Math.round] is monotone. *)
Lemma Math_round_monotone (x y : Q) :
  (x <= y)%Q -> number_le (Math_round (Num x)) (Math_round (Num y)).
Proof.
  intros H. cbn [Math_round number_le]. rewrite <- Zle_Qle.
  apply Qfloor_resp_le. lra.
Qed.

(** The component scores of finite readings are numbers. *)
Lemma scoreCPU_value (c : Q) :
  exists x, scoreCPU (Num c) = Num x /\ (0 <= x <= 30)%Q.
Proof.
  pose proof (scoreCPU_between c) as H.
  destruct (scoreCPU (Num c)) as [|x]; [destruct H|eauto].
Qed.

Lemma scoreRAM_value (r : Q) :
  exists x, scoreRAM (Num r) = Num x /\ (0 <= x <= 25)%Q.
Proof.
  pose proof (scoreRAM_between r) as H.
  destruct (scoreRAM (Num r)) as [|x]; [destruct H|eauto].
Qed.

Lemma scoreStorage_value (s : Q) :
  exists x, scoreStorage (Num s) = Num x /\ (0 <= x <= 25)%Q.
Proof.
  pose proof (scoreStorage_between s) as H.
  destruct (scoreStorage (Num s)) as [|x]; [destruct H|eauto].
Qed.

(** The battery score of a finite reading is a number, whatever
    [Math.pow] returns. *)
Lemma scoreBattery_value (Math_pow : Q -> Q -> Q) (b : Q) :
  exists x, scoreBattery Math_pow (Num b) = Num x.
Proof.
  unfold scoreBattery. cbn [div]. literal_tests.
  pose proof (clamp_between (b / 100) 0 1 ltac:(lra)) as Hn.
  destruct (clamp (Num (b / 100)) (Num 0) (Num 1)) as [|n]; [destruct Hn|].
  simpl. eauto.
Qed.

Lemma weightedTotal_value (c r s b : Q) :
  weightedTotal {| cpu := Num c; ram := Num r; storage := Num s; battery := Num b |}
  = Num (c / 30 * 0.30 * 100 + r / 25 * 0.25 * 100 + s / 25 * 0.25 * 100
         + b / 20 * 0.20 * 100).
Proof.
  unfold weightedTotal. cbn [cpu ram storage battery MAX_SCORES WEIGHTS div].
  literal_tests. reflexivity.
Qed.

(** The scorers are monotone in the reading. *)
Lemma scoreCPU_monotone (c1 c2 : Q) :
  (c1 <= c2)%Q -> number_le (scoreCPU (Num c1)) (scoreCPU (Num c2)).
Proof.
  intros H. rewrite !scoreCPU_closed.
  split_comparisons; simpl; try lra;
    repeat match goal with H : context [Qdiv] |- _ => revert H end;
    literal_division; intros; lra.
Qed.

Lemma scoreStorage_monotone (s1 s2 : Q) :
  (s1 <= s2)%Q -> number_le (scoreStorage (Num s1)) (scoreStorage (Num s2)).
Proof.
  intros H. rewrite !scoreStorage_closed.
  split_comparisons; simpl; try lra;
    repeat match goal with H : context [Qdiv] |- _ => revert H end;
    literal_division; intros; lra.
Qed.

Lemma scoreRAM_monotone (r1 r2 : Q) :
  (r1 <= r2)%Q -> number_le (scoreRAM (Num r1)) (scoreRAM (Num r2)).
Proof.
  intros H. unfold scoreRAM, clamp. cbn [MAX_SCORES ram Math_min].
  destruct (Qle_bool r1 32) eqn:E1;
    [apply Qle_bool_true in E1 | apply Qle_bool_false in E1];
    (destruct (Qle_bool r2 32) eqn:E2;
     [apply Qle_bool_true in E2 | apply Qle_bool_false in E2]);
    cbn [div]; literal_tests; cbn [mul]; unfold Math_min, Math_max;
    split_comparisons; simpl; try lra;
    repeat match goal with H : context [Qdiv] |- _ => revert H end;
    literal_division; intros; lra.
Qed.

(** X15. The legacy total is monotone in the cpu, ram and storage
    readings: raising any of them, the battery reading unchanged, never
    lowers the reported total score. *)
Theorem legacy_total_monotone (Math_pow : Q -> Q -> Q) (c1 c2 r1 r2 s1 s2 b : Q) :
  (c1 <= c2)%Q -> (r1 <= r2)%Q -> (s1 <= s2)%Q ->
  number_le
    (report_totalScore (evaluateDevice Math_pow (Num c1) (Num r1) (Num s1) (Num b)))
    (report_totalScore (evaluateDevice Math_pow (Num c2) (Num r2) (Num s2) (Num b))).
Proof.
  intros Hc Hr Hs. unfold evaluateDevice. cbn [report_totalScore].
  pose proof (scoreCPU_monotone c1 c2 Hc) as Mc.
  pose proof (scoreRAM_monotone r1 r2 Hr) as Mr.
  pose proof (scoreStorage_monotone s1 s2 Hs) as Ms.
  destruct (scoreCPU_value c1) as (x1 & E1 & _), (scoreCPU_value c2) as (x2 & E2 & _).
  destruct (scoreRAM_value r1) as (y1 & F1 & _), (scoreRAM_value r2) as (y2 & F2 & _).
  destruct (scoreStorage_value s1) as (z1 & G1 & _), (scoreStorage_value s2) as (z2 & G2 & _).
  destruct (scoreBattery_value Math_pow b) as (w & Hw).
  rewrite E1, E2 in *. rewrite F1, F2 in *. rewrite G1, G2 in *. rewrite Hw.
  simpl in Mc, Mr, Ms. rewrite !weightedTotal_value.
  apply Math_round_monotone. literal_division. lra.
Qed.

Lemma legacy_total_monotone_witness :
  number_le
    (report_totalScore (evaluateDevice squareCurve (Num 65) (Num 8) (Num 75) (Num 80)))
    (report_totalScore (evaluateDevice squareCurve (Num 66) (Num 16) (Num 75) (Num 80))).
Proof.
  apply legacy_total_monotone; vm_compute; discriminate.
Defined.

(** X16. What the legacy verdict requires. A report that says the
    device is reusable has a total of at least 60 and no POOR component,
    hence a cpu reading of at least 50, at least 16 GB of ram and a
    storage reading of at least 50. *)
Theorem legacy_reusable_requires (Math_pow : Q -> Q -> Q) (c r s b : Q) :
  let report := evaluateDevice Math_pow (Num c) (Num r) (Num s) (Num b) in
  overallReusable (report_reusabilitySummary report) = true ->
  ge (report_totalScore report) (Num 60) = true
  /\ (forall x, In x (values (report_components report)) -> comp_health x <> POOR)
  /\ (50 <= c)%Q /\ (16 <= r)%Q /\ (50 <= s)%Q.
Proof.
  cbv zeta. unfold evaluateDevice.
  cbn [report_reusabilitySummary overallReusable report_totalScore report_components].
  match goal with
  | |- isReusable ?cs ?t = true -> _ => set (components := cs); set (total := t)
  end.
  assert (Hcpu : comp_health (cpu components) = healthByReading 80 50 c)
    by apply cpu_health_by_reading.
  assert (Hram : comp_health (ram components) = healthByReading (128 # 5) 16 r)
    by apply ram_health_by_reading.
  assert (Hsto : comp_health (storage components) = healthByReading 80 50 s)
    by apply storage_health_by_reading.
  clearbody components total.
  unfold isReusable. intros H. apply Bool.andb_true_iff in H as [Htotal Hnone].
  apply Bool.negb_true_iff in Hnone.
  assert (Hall : forall x, In x (values components) -> comp_health x <> POOR).
  { intros x Hin Hpoor.
    assert (Hex : existsb (fun c0 => health_eqb (comp_health c0) POOR) (values components)
                  = true).
    { apply existsb_exists. exists x. split; [exact Hin|]. rewrite Hpoor. reflexivity. }
    congruence. }
  split; [|split; [exact Hall|]].
  - destruct total as [|t]; [discriminate Htotal|].
    apply ge_spec in Htotal. cbn [Math_round]. apply ge_spec.
    change 60%Q with (inject_Z 60). rewrite <- Zle_Qle.
    rewrite <- (Qfloor_Z 60). apply Qfloor_resp_le.
    change (inject_Z 60) with 60%Q. lra.
  - pose proof (Hall (cpu components) (or_introl eq_refl)) as Hc.
    pose proof (Hall (ram components) (or_intror (or_introl eq_refl))) as Hr.
    pose proof (Hall (storage components)
                  (or_intror (or_intror (or_introl eq_refl)))) as Hs.
    rewrite Hcpu in Hc. rewrite Hram in Hr. rewrite Hsto in Hs.
    unfold healthByReading in Hc, Hr, Hs.
    repeat split.
    + destruct (Qle_bool 80 c) eqn:E1; [apply Qle_bool_true in E1; lra|].
      destruct (Qle_bool 50 c) eqn:E2; [apply Qle_bool_true in E2; exact E2|congruence].
    + destruct (Qle_bool (128 # 5) r) eqn:E1; [apply Qle_bool_true in E1; lra|].
      destruct (Qle_bool 16 r) eqn:E2; [apply Qle_bool_true in E2; exact E2|congruence].
    + destruct (Qle_bool 80 s) eqn:E1; [apply Qle_bool_true in E1; lra|].
      destruct (Qle_bool 50 s) eqn:E2; [apply Qle_bool_true in E2; exact E2|congruence].
Qed.

Lemma legacy_reusable_requires_witness :
  ge (report_totalScore (evaluateDevice squareCurve (Num 100) (Num 32) (Num 100) (Num 100)))
     (Num 60) = true
  /\ (50 <= 100)%Q /\ (16 <= 32)%Q.
Proof.
  assert (H : overallReusable (report_reusabilitySummary
                (evaluateDevice squareCurve (Num 100) (Num 32) (Num 100) (Num 100))) = true)
    by (vm_compute; reflexivity).
  destruct (legacy_reusable_requires squareCurve 100 32 100 100 H)
    as (Ht & _ & Hc & Hr & _).
  split; [exact Ht|]. split; [exact Hc|exact Hr].
Defined.

(** ** Readings that are not numbers *)

Lemma add_NaN_l (a : number) : add NaN a = NaN.
Proof. reflexivity. Qed.

Lemma add_NaN_r (a : number) : add a NaN = NaN.
Proof. destruct a; reflexivity. Qed.

Lemma weightedTotal_NaN (scores : per_component number) :
  cpu scores = NaN \/ ram scores = NaN \/ storage scores = NaN \/ battery scores = NaN ->
  weightedTotal scores = NaN.
Proof.
  unfold weightedTotal. intros [H | [H | [H | H]]]; rewrite H; cbn [div mul];
    rewrite ?add_NaN_l, ?add_NaN_r; reflexivity.
Qed.

(** X17. One reading that is [NaN] spoils the legacy report: the total
    score is [NaN], and every judgement derived from it takes its worst
    value (health POOR, sustainability LOW, not reusable, longevity
    [NaN]). *)
Theorem legacy_NaN_reading (Math_pow : Q -> Q -> Q) (c r s b : number) :
  c = NaN \/ r = NaN \/ s = NaN \/ b = NaN ->
  let report := evaluateDevice Math_pow c r s b in
  report_totalScore report = NaN
  /\ report_health report = POOR
  /\ overallReusable (report_reusabilitySummary report) = false
  /\ longevity_sustainability (report_longevity report) = LOW
  /\ yearsRemaining (report_longevity report) = NaN.
Proof.
  intros H. cbv zeta. unfold evaluateDevice.
  cbn [report_totalScore report_health report_reusabilitySummary overallReusable
       report_longevity longevity_sustainability yearsRemaining].
  assert (Ht : weightedTotal
            {| cpu := scoreCPU c; ram := scoreRAM r; storage := scoreStorage s;
               battery := scoreBattery Math_pow b |} = NaN).
  { apply weightedTotal_NaN. cbn [cpu ram storage battery].
    destruct H as [-> | [-> | [-> | ->]]]; auto. }
  rewrite Ht. repeat split; reflexivity.
Qed.

Lemma legacy_NaN_reading_witness :
  report_totalScore (evaluateDevice squareCurve (Num 65) NaN (Num 75) (Num 80)) = NaN.
Proof.
  exact (proj1 (legacy_NaN_reading squareCurve (Num 65) NaN (Num 75) (Num 80)
                  (or_intror (or_introl eq_refl)))).
Defined.

(* ================================================================== *)
(** * The previous revision against the latest *)
(* ================================================================== *)

Lemma weightedTotal_finite (Math_pow : Q -> Q -> Q) (c r s b : Q) :
  exists t,
    weightedTotal {| cpu := scoreCPU (Num c); ram := scoreRAM (Num r);
                     storage := scoreStorage (Num s);
                     battery := scoreBattery Math_pow (Num b) |} = Num t.
Proof.
  destruct (scoreCPU_value c) as (x & -> & _), (scoreRAM_value r) as (y & -> & _).
  destruct (scoreStorage_value s) as (z & -> & _).
  destruct (scoreBattery_value Math_pow b) as (w & ->).
  rewrite weightedTotal_value. eauto.
Qed.

Lemma isReusable_revisions (components : per_component component_summary) (t : Q) :
  EarlierPipeline.isReusable components (Num t) = isReusable components (Num t).
Proof.
  unfold EarlierPipeline.isReusable, isReusable, lt, ge, Qlt_bool.
  destruct (Qle_bool 60 t); reflexivity.
Qed.

(** X18. The latest revision of the engine kept the legacy report of
    the previous one for finite readings: total score, overall health,
    component scores and labels, reusability summary, sustainability and
    the reusable verdict are the same; only the longevity estimate (and
    the rounding of the scores inside the breakdowns) changed. *)
Theorem legacy_report_preserved (Math_pow : Q -> Q -> Q) (c r s b : Q) :
  let latest := evaluateDevice Math_pow (Num c) (Num r) (Num s) (Num b) in
  let earlier := EarlierPipeline.evaluateDevice Math_pow (Num c) (Num r) (Num s) (Num b) in
  report_totalScore latest = report_totalScore earlier
  /\ report_health latest = report_health earlier
  /\ report_components latest = report_components earlier
  /\ report_reusabilitySummary latest = report_reusabilitySummary earlier
  /\ longevity_sustainability (report_longevity latest)
     = longevity_sustainability (report_longevity earlier)
  /\ longevity_reusable (report_longevity latest)
     = longevity_reusable (report_longevity earlier).
Proof.
  cbv zeta. unfold evaluateDevice, EarlierPipeline.evaluateDevice.
  cbn [report_totalScore report_health report_components report_reusabilitySummary
       report_longevity longevity_sustainability longevity_reusable].
  destruct (weightedTotal_finite Math_pow c r s b) as (t & Ht). rewrite Ht.
  rewrite isReusable_revisions.
  repeat split; try reflexivity.
  unfold values, buildLegacyComponentBreakdown, EarlierPipeline.buildBreakdown.
  cbn [cpu ram storage battery breakdown_reusability].
  destruct (isComponentReusable "cpu" (Num c)) as [[] ? ?];
    destruct (isComponentReusable "ram" (Num r)) as [[] ? ?];
    destruct (isComponentReusable "storage" (Num s)) as [[] ? ?];
    destruct (isComponentReusable "battery" (Num b)) as [[] ? ?];
    reflexivity.
Qed.





(* ================================================================== *)
(** * Further properties of the dispatcher *)
(* ================================================================== *)

Lemma get_insert_other (props : gmap string value) (key other : string) (v : value) :
  other <> key -> get (<[other := v]> props) key = get props key.
Proof. intros H. unfold get. rewrite lookup_insert_ne by exact H. reflexivity. Qed.

Lemma normalizeInput_insert_other (StringToNumber : string -> number)
    (props : gmap string value) (other : string) (v : value) :
  ~ In other fieldKeys ->
  normalizeInput StringToNumber (<[other := v]> props) = normalizeInput StringToNumber props.
Proof.
  intros H. unfold normalizeInput.
  rewrite !get_insert_other by (intros ->; apply H; simpl; tauto).
  reflexivity.
Qed.

Lemma ownsStandardizedKey_insert_other (props : gmap string value) (other : string)
    (v : value) :
  ~ In other Service.standardizedKeys ->
  ownsStandardizedKey (<[other := v]> props) = ownsStandardizedKey props.
Proof.
  intros H. unfold ownsStandardizedKey, Service.standardizedKeys. cbn [existsb].
  rewrite !lookup_insert_ne by (intros ->; apply H; simpl; tauto).
  reflexivity.
Qed.

Lemma legacyField_insert_other (StringToNumber : string -> number)
    (props : gmap string value) (other a b : string) (v : value) :
  other <> a -> other <> b ->
  Service.legacyField StringToNumber (Service.Object (<[other := v]> props)) a b
  = Service.legacyField StringToNumber (Service.Object props) a b.
Proof.
  intros Ha Hb. unfold Service.legacyField, Service.read.
  rewrite !get_insert_other by assumption. reflexivity.
Qed.

Lemma legacyField_preferred (StringToNumber : string -> number)
    (props : gmap string value) (a b : string) (x v : value) :
  props !! a = Some x -> ~ nullish x -> a <> b ->
  Service.legacyField StringToNumber (Service.Object (<[b := v]> props)) a b
  = Service.legacyField StringToNumber (Service.Object props) a b.
Proof.
  intros Hx Hnot Hab. unfold Service.legacyField, Service.read.
  assert (Hget : get props a = x) by (unfold get; rewrite Hx; reflexivity).
  rewrite (get_insert_other props a b v) by congruence.
  rewrite Hget. cbn [Service.bind].
  destruct x; try reflexivity; exfalso; apply Hnot; unfold nullish; auto.
Qed.

(** The envelope is built from the detection, from the normalised
    record and from the four legacy readings. *)
Lemma envelope_determined (StringToNumber : string -> number) (Math_pow : Q -> Q -> Q)
    (p q : gmap string value) :
  p !! "hasOwnProperty" = q !! "hasOwnProperty" ->
  ownsStandardizedKey p = ownsStandardizedKey q ->
  normalizeInput StringToNumber p = normalizeInput StringToNumber q ->
  (forall a b, In (a, b) legacyAliases ->
     Service.legacyField StringToNumber (Service.Object p) a b
     = Service.legacyField StringToNumber (Service.Object q) a b) ->
  Service.evaluateDevice StringToNumber Math_pow (Service.Object p)
  = Service.evaluateDevice StringToNumber Math_pow (Service.Object q).
Proof.
  intros Hshadow Hown Hnorm Hfields.
  unfold Service.evaluateDevice, Service.dispatch, Service.try_block.
  rewrite !isStandardizedInput_object, Hshadow, Hown.
  unfold Service.standardizedPipeline, evaluateDeviceStandardized. rewrite Hnorm.
  rewrite (Hfields "cpu_usage" "cpu"), (Hfields "ram_gb" "ram"),
          (Hfields "storage_health" "storage"), (Hfields "battery_health" "battery")
    by (simpl; tauto).
  reflexivity.
Qed.

(** X20. A key that the engine does not read changes nothing: adding
    or overwriting any key other than the thirteen standardized fields,
    the eight legacy names and [hasOwnProperty] leaves the whole
    envelope as it was. *)
Theorem unread_key_ignored (StringToNumber : string -> number) (Math_pow : Q -> Q -> Q)
    (props : gmap string value) (other : string) (v : value) :
  ~ In other fieldKeys ->
  (forall a b, In (a, b) legacyAliases -> other <> a /\ other <> b) ->
  other <> "hasOwnProperty" ->
  Service.evaluateDevice StringToNumber Math_pow (Service.Object (<[other := v]> props))
  = Service.evaluateDevice StringToNumber Math_pow (Service.Object props).
Proof.
  intros Hfield Hlegacy Hshadow. apply envelope_determined.
  - apply lookup_insert_ne. exact Hshadow.
  - apply ownsStandardizedKey_insert_other. intros Hin. apply Hfield.
    unfold Service.standardizedKeys in Hin. simpl in Hin. simpl. tauto.
  - apply normalizeInput_insert_other. exact Hfield.
  - intros a b Hin. destruct (Hlegacy a b Hin) as [Ha Hb].
    apply legacyField_insert_other; assumption.
Qed.

Lemma unread_key_ignored_witness :
  Service.evaluateDevice noNumericStrings squareCurve
    (Service.Object (<["timestamp" := VNumber (Num 1700000000)]> legacyInput))
  = Service.evaluateDevice noNumericStrings squareCurve (Service.Object legacyInput).
Proof.
  apply unread_key_ignored.
  - simpl. intuition discriminate.
  - intros a b Hin. simpl in Hin.
    repeat (destruct Hin as [[= <- <-] | Hin]; [split; discriminate|]). destruct Hin.
  - discriminate.
Defined.

(** X21. The preferred name of a legacy reading wins: when [cpu_usage]
    holds a value that is not [null] or [undefined], the value under
    [cpu] is never looked at, and likewise for [ram_gb] over [ram],
    [storage_health] over [storage] and [battery_health] over
    [battery]. *)
Theorem legacy_alias_precedence (StringToNumber : string -> number)
    (Math_pow : Q -> Q -> Q) (props : gmap string value) (a b : string) (x v : value) :
  In (a, b) legacyAliases -> props !! a = Some x -> ~ nullish x ->
  Service.evaluateDevice StringToNumber Math_pow (Service.Object (<[b := v]> props))
  = Service.evaluateDevice StringToNumber Math_pow (Service.Object props).
Proof.
  intros Hin Hx Hnot. apply envelope_determined.
  - apply lookup_insert_ne. simpl in Hin.
    repeat (destruct Hin as [[= <- <-] | Hin]; [discriminate|]). destruct Hin.
  - apply ownsStandardizedKey_insert_other. simpl in Hin.
    repeat (destruct Hin as [[= <- <-] | Hin]; [simpl; intuition discriminate|]).
    destruct Hin.
  - apply normalizeInput_insert_other. simpl in Hin.
    repeat (destruct Hin as [[= <- <-] | Hin]; [simpl; intuition discriminate|]).
    destruct Hin.
  - intros a' b' Hin'. simpl in Hin, Hin'.
    repeat (destruct Hin as [[= <- <-] | Hin];
      [ repeat (destruct Hin' as [[= <- <-] | Hin'];
          [ first [ apply (legacyField_preferred _ _ _ _ x); [exact Hx|exact Hnot|discriminate]
                  | apply legacyField_insert_other; discriminate ] |]);
        destruct Hin' |]).
    destruct Hin.
Qed.

Lemma legacy_alias_precedence_witness :
  Service.evaluateDevice noNumericStrings squareCurve
    (Service.Object (<["cpu" := VNumber (Num 5)]>
                       (<["cpu_usage" := VNumber (Num 65)]> legacyInput)))
  = Service.evaluateDevice noNumericStrings squareCurve
      (Service.Object (<["cpu_usage" := VNumber (Num 65)]> legacyInput)).
Proof.
  apply (legacy_alias_precedence noNumericStrings squareCurve _ "cpu_usage" "cpu"
           (VNumber (Num 65))).
  - simpl. tauto.
  - apply lookup_insert_eq.
  - intros [H | H]; discriminate H.
Defined.

(** X22. An argument that is not an object is evaluated like the empty
    payload: [undefined] by the default parameter, a boolean, a number
    or a string because none of its property reads finds anything. Only
    [null] differs (it throws, and is answered by the error envelope). *)
Theorem primitive_is_empty_payload (StringToNumber : string -> number)
    (Math_pow : Q -> Q -> Q) (v : value) :
  v <> VNull ->
  Service.evaluateDevice StringToNumber Math_pow (Service.Primitive v)
  = Service.evaluateDevice StringToNumber Math_pow (Service.Object ∅)
  /\ Service.evaluationModel
       (Service.evaluateDevice StringToNumber Math_pow (Service.Primitive v))
     = "LEGACY_COMPONENT_HEALTH".
Proof.
  intros Hv.
  assert (Hempty : Service.evaluationModel
            (Service.evaluateDevice StringToNumber Math_pow (Service.Object ∅))
          = "LEGACY_COMPONENT_HEALTH").
  { apply routed_legacy; [apply lookup_empty|]. reflexivity. }
  assert (Heq : Service.evaluateDevice StringToNumber Math_pow (Service.Primitive v)
                = Service.evaluateDevice StringToNumber Math_pow (Service.Object ∅)).
  { destruct v; try congruence; reflexivity. }
  split; [exact Heq|]. rewrite Heq. exact Hempty.
Qed.

Lemma primitive_is_empty_payload_witness :
  Service.evaluationModel
    (Service.evaluateDevice noNumericStrings squareCurve
       (Service.Primitive (VString "diagnostics")))
  = "LEGACY_COMPONENT_HEALTH".
Proof.
  refine (proj2 (primitive_is_empty_payload noNumericStrings squareCurve
                   (VString "diagnostics") _)).
  discriminate.
Defined.

(** X23. The [overall] block of a standardized envelope agrees with the
    nested result: same total, the label of the result's tier as
    classification, reusable exactly when the tier is not
    NOT_RECOMMENDED; a GOOD overall health needs a total of 80 and so a
    tier REUSABLE or HIGH_GRADE, and a HIGH_GRADE tier always comes with
    a GOOD overall health, a NOT_RECOMMENDED tier always with POOR. *)
Theorem standardized_overall_consistent (StringToNumber : string -> number)
    (Math_pow : Q -> Q -> Q) (props : gmap string value) :
  props !! "hasOwnProperty" = None ->
  ownsStandardizedKey props = true ->
  let envelope := Service.evaluateDevice StringToNumber Math_pow (Service.Object props) in
  let result := evaluateDeviceStandardized StringToNumber props in
  let t := view_tier (result_classification result) in
  Service.standardized envelope = Some result
  /\ Service.total_score (Service.overall envelope) = totalScore result
  /\ Service.overall_classification (Service.overall envelope)
     = Some (label (class_of_tier t))
  /\ (Service.overall_reusable (Service.overall envelope) = true <-> t <> NOT_RECOMMENDED)
  /\ (Service.overall_health (Service.overall envelope) = GOOD ->
      t = REUSABLE \/ t = HIGH_GRADE)
  /\ (t = HIGH_GRADE -> Service.overall_health (Service.overall envelope) = GOOD)
  /\ (t = NOT_RECOMMENDED -> Service.overall_health (Service.overall envelope) = POOR).
Proof.
  intros Hshadow Hown. cbv zeta.
  unfold Service.evaluateDevice, Service.dispatch, Service.try_block.
  rewrite isStandardizedInput_object, Hshadow, Hown.
  cbn [Service.bind Service.standardizedPipeline Service.standardized Service.overall
       Service.total_score Service.overall_classification Service.overall_reusable
       Service.overall_health].
  split; [reflexivity|]. split; [reflexivity|].
  destruct (standardized_total_is_integer StringToNumber props) as (z & Hz & _).
  unfold evaluateDeviceStandardized in *.
  cbn [totalScore result_classification level view_tier] in *.
  rewrite classifyReusability_tierOf. rewrite Hz.
  split; [reflexivity|].
  unfold tierOf, ge.
  repeat split; split_comparisons; try congruence; try discriminate; try lra;
    intros; try congruence; try (right; reflexivity); try (left; reflexivity).
Qed.

Lemma standardized_overall_consistent_witness :
  Service.overall_reusable
    (Service.overall
       (Service.evaluateDevice noNumericStrings squareCurve
          (Service.Object standardizedNotRecommended))) = true
  <-> view_tier (result_classification
        (evaluateDeviceStandardized noNumericStrings standardizedNotRecommended))
      <> NOT_RECOMMENDED.
Proof.
  assert (H1 : standardizedNotRecommended !! "hasOwnProperty" = None)
    by (vm_compute; reflexivity).
  assert (H2 : ownsStandardizedKey standardizedNotRecommended = true)
    by (vm_compute; reflexivity).
  exact (proj1 (proj2 (proj2 (proj2
    (standardized_overall_consistent noNumericStrings squareCurve
       standardizedNotRecommended H1 H2))))).
Defined.






(* ================================================================== *)
(** * The frontend against the engine *)
(* ================================================================== *)

Lemma frontend_sorted_tiers :
  Frontend.SORTED_TIERS =
  [ Frontend.HIGH_GRADE_TIER; Frontend.REUSABLE_TIER;
    Frontend.LIMITED_TIER; Frontend.NOT_RECOMMENDED_TIER ].
Proof. reflexivity. Qed.

(** The frontend's tier for a tier tag of the engine. *)
Lemma classifyByStandardized_tierOf (n : number) :
  Frontend.classifyByStandardized n =
  match tierOf n with
  | HIGH_GRADE => Frontend.HIGH_GRADE_TIER
  | REUSABLE => Frontend.REUSABLE_TIER
  | LIMITED => Frontend.LIMITED_TIER
  | NOT_RECOMMENDED => Frontend.NOT_RECOMMENDED_TIER
  end.
Proof.
  unfold Frontend.classifyByStandardized. rewrite frontend_sorted_tiers.
  unfold tierOf. simpl.
  destruct (ge n (Num 85)); [reflexivity|].
  destruct (ge n (Num 70)); [reflexivity|].
  destruct (ge n (Num 50)); [reflexivity|].
  destruct (ge n (Num 0)); reflexivity.
Qed.

(** X26. The frontend classifies like the engine: for every score,
    [NaN] included, [classifyByStandardized] answers the tier with the
    label, description and minimum of the record that
    [classifyReusability] answers, and the badge carries the tag of the
    engine's tier. *)
Theorem frontend_agrees_with_engine (n : number) :
  let tier := Frontend.classifyByStandardized n in
  let c := classifyReusability n in
  Frontend.tier_label tier = label c
  /\ Frontend.tier_description tier = description c
  /\ Frontend.band_min (Frontend.tier_score tier) = min c
  /\ Frontend.badge_tier (Frontend.getReusabilityBadge n) = Some (tier_tag (tierOf n))
  /\ Frontend.badge_label (Frontend.getReusabilityBadge n) = label c.
Proof.
  cbv zeta. unfold Frontend.getReusabilityBadge.
  rewrite classifyByStandardized_tierOf, classifyReusability_tierOf.
  destruct (tierOf n); repeat split; reflexivity.
Qed.

(** X27. The total of every standardized result lies inside the score
    band that the frontend declares for its tier (85-100, 70-84, 50-69,
    0-49): the bands leave gaps between whole numbers, and the total is
    a whole number. *)
Theorem total_inside_frontend_band (StringToNumber : string -> number)
    (input : gmap string value) :
  let total := totalScore (evaluateDeviceStandardized StringToNumber input) in
  let band := Frontend.tier_score (Frontend.classifyByStandardized total) in
  ge total (Frontend.band_min band) = true /\ ge (Frontend.band_max band) total = true.
Proof.
  cbv zeta.
  destruct (standardized_total_is_integer StringToNumber input) as (z & -> & Hz).
  rewrite classifyByStandardized_tierOf. unfold tierOf, ge.
  assert (Hint : forall k : Z, (inject_Z k <= inject_Z z)%Q <-> (k <= z)%Z)
    by (intros k; rewrite (Zle_Qle k z); tauto).
  change 85%Q with (inject_Z 85). change 70%Q with (inject_Z 70).
  change 50%Q with (inject_Z 50).
  destruct (Qle_bool (inject_Z 85) (inject_Z z)) eqn:E85.
  { apply Qle_bool_true in E85. apply Hint in E85. cbn [Frontend.tier_score
      Frontend.HIGH_GRADE_TIER Frontend.band_min Frontend.band_max].
    split; apply Qle_bool_true; [change 85%Q with (inject_Z 85)
                                |change 100%Q with (inject_Z 100)];
      rewrite <- Zle_Qle; lia. }
  apply Qle_bool_false in E85. rewrite <- Zlt_Qlt in E85.
  destruct (Qle_bool (inject_Z 70) (inject_Z z)) eqn:E70.
  { apply Qle_bool_true in E70. apply Hint in E70. cbn [Frontend.tier_score
      Frontend.REUSABLE_TIER Frontend.band_min Frontend.band_max].
    split; apply Qle_bool_true; [change 70%Q with (inject_Z 70)
                                |change 84%Q with (inject_Z 84)];
      rewrite <- Zle_Qle; lia. }
  apply Qle_bool_false in E70. rewrite <- Zlt_Qlt in E70.
  destruct (Qle_bool (inject_Z 50) (inject_Z z)) eqn:E50.
  { apply Qle_bool_true in E50. apply Hint in E50. cbn [Frontend.tier_score
      Frontend.LIMITED_TIER Frontend.band_min Frontend.band_max].
    split; apply Qle_bool_true; [change 50%Q with (inject_Z 50)
                                |change 69%Q with (inject_Z 69)];
      rewrite <- Zle_Qle; lia. }
  apply Qle_bool_false in E50. rewrite <- Zlt_Qlt in E50.
  cbn [Frontend.tier_score Frontend.NOT_RECOMMENDED_TIER Frontend.band_min
       Frontend.band_max].
  split; apply Qle_bool_true; [change 0%Q with (inject_Z 0)
                              |change 49%Q with (inject_Z 49)];
    rewrite <- Zle_Qle; lia.
Qed.

(** X28. On the score card the ring and the classification chip always
    show the same hue: the background chosen from the tier tag of a
    result is the colour chosen from its total score, with the alpha
    suffix "20". *)
Theorem score_card_colours_agree (StringToNumber : string -> number)
    (input : gmap string value) :
  let r := evaluateDeviceStandardized StringToNumber input in
  Frontend.getClassificationBg (tier_tag (view_tier (result_classification r)))
  = Frontend.getScoreColor (totalScore r) ++ "20".
Proof.
  cbv zeta. unfold evaluateDeviceStandardized.
  cbn [result_classification view_tier totalScore].
  set (total := add _ _). clearbody total.
  unfold tierOf, Frontend.getScoreColor.
  destruct (ge total (Num 85)); [reflexivity|].
  destruct (ge total (Num 70)); [reflexivity|].
  destruct (ge total (Num 50)); reflexivity.
Qed.
